(** * Hybrid on-device / cloud routing of function calls (main.py)

    A shallow embedding of [generate_cactus], [generate_cloud] and
    [generate_hybrid].

    - Values that come out of [json.loads] are dynamically typed: they are
      modelled by [pyval], dictionaries being finite maps with string keys.
    - Python floats are binary64 numbers: they are Rocq's primitive floats.
    - Exceptions are an error result; the on-device model handles and the
      wall clock are an explicit world that every call threads through.
    - The inference engine, the JSON decoder, the cloud client and the clock
      are outside of the program: they are the fields of [Runtime]. *)

From Stdlib Require Import ZArith Floats String Ascii.
From stdpp Require Import gmap strings list fin_maps.

Set Warnings "-inexact-float".
Open Scope string_scope.
Open Scope Z_scope.

(** ** Python values and exceptions *)

#[warnings="-register-all"]
Inductive pyval : Type :=
| PNone
| PBool (b : bool)
| PInt (z : Z)
| PFloat (f : float)
| PStr (s : string)
| PList (l : list pyval)
| PDict (d : gmap string pyval).

Inductive exn : Type :=
| JSONDecodeError
| RecursionError
| KeyError
| IndexError
| TypeError
| AttributeError
| OverflowError
| EngineError (what : string)
| CloudError (what : string).

Inductive result (A : Type) : Type :=
| Ok (a : A)
| Raise (e : exn).
Arguments Ok {A} a.
Arguments Raise {A} e.

Definition result_bind {A B} (r : result A) (k : A → result B) : result B :=
  match r with
  | Ok a => k a
  | Raise e => Raise e
  end.

#[global] Instance result_ret : MRet result := @Ok.
#[global] Instance result_mbind : MBind result := λ A B k r, result_bind r k.

(** ** Text

    A character is a code point below 256.  On that range [str.lower] is
    closed: it moves A-Z and the accented capitals (except the
    multiplication sign) 32 places up. *)

Definition lower_char (c : ascii) : ascii :=
  let n := N_of_ascii c in
  if ((65 <=? n) && (n <=? 90) || (192 <=? n) && (n <=? 222) && negb (n =? 215))%N
  then ascii_of_N (n + 32) else c.

Fixpoint lower (s : string) : string :=
  match s with
  | EmptyString => EmptyString
  | String c s' => String (lower_char c) (lower s')
  end.

(** [str.upper]: a-z and the accented small letters 32 places down.  The
    three characters whose capital lies above 255 (the micro sign, the sharp
    s, the y with diaeresis) are left as they are. *)
Definition upper_char (c : ascii) : ascii :=
  let n := N_of_ascii c in
  if ((97 <=? n) && (n <=? 122) || (224 <=? n) && (n <=? 254) && negb (n =? 247))%N
  then ascii_of_N (n - 32) else c.

Fixpoint upper (s : string) : string :=
  match s with
  | EmptyString => EmptyString
  | String c s' => String (upper_char c) (upper s')
  end.

(** [" ".join(parts)] *)
Definition join (sep : string) (parts : list string) : string :=
  String.concat sep parts.

(** [k in s] for strings: [k] occurs in [s] as a contiguous block. *)
Fixpoint contains (k s : string) : bool :=
  String.prefix k s ||
  match s with
  | EmptyString => false
  | String _ s' => contains k s'
  end.

(** [s.endswith(k)] *)
Definition endswith (s k : string) : bool :=
  let n := String.length s in
  let m := String.length k in
  (m <=? n)%nat && String.eqb (String.substring (n - m) m s) k.

(** ** Numbers

    [int] is unbounded, [float] is binary64 and [bool] counts as the
    integers 0 and 1. *)

Inductive number : Type :=
| NInt (z : Z)
| NFloat (f : float).

Definition as_number (v : pyval) : option number :=
  match v with
  | PBool b => Some (NInt (if b then 1 else 0))
  | PInt z => Some (NInt z)
  | PFloat f => Some (NFloat f)
  | _ => None
  end.

(** [float(z)]: the nearest binary64 number, ties to even; an integer that
    rounds beyond the largest finite float raises [OverflowError]. *)
Definition float_of_int (z : Z) : result float :=
  match binary_normalize prec emax z 0 false with
  | S754_infinity _ => Raise OverflowError
  | sf => Ok (SF2Prim sf)
  end.

Definition to_float (n : number) : result float :=
  match n with
  | NInt z => float_of_int z
  | NFloat f => Ok f
  end.

(** [a + b] *)
Definition py_add (a b : pyval) : result pyval :=
  match a, b with
  | PStr x, PStr y => Ok (PStr (x +:+ y))
  | PList x, PList y => Ok (PList (x ++ y))
  | _, _ =>
    match as_number a, as_number b with
    | Some (NInt x), Some (NInt y) => Ok (PInt (x + y))
    | Some x, Some y =>
      fx ← to_float x; fy ← to_float y; Ok (PFloat (fx + fy)%float)
    | _, _ => Raise TypeError
    end
  end.

(** The order between an integer and a float is the exact one: the integer
    is not rounded first.  [None] stands for "not comparable" (NaN). *)
Definition int_compare_float (z : Z) (t : float) : option comparison :=
  match Prim2SF t with
  | S754_nan => None
  | S754_infinity s => Some (if s then Gt else Lt)
  | S754_zero _ => Some (z ?= 0)
  | S754_finite s m e =>
    let v := if s then Z.neg m else Z.pos m in
    if 0 <=? e then Some (z ?= v * 2 ^ e) else Some (z * 2 ^ (- e) ?= v)
  end.

(** [v < t] and [v >= t] against a float [t]. *)
Definition py_lt (v : pyval) (t : float) : result bool :=
  match as_number v with
  | Some (NFloat f) => Ok (f <? t)%float
  | Some (NInt z) =>
    Ok match int_compare_float z t with Some Lt => true | _ => false end
  | None => Raise TypeError
  end.

Definition py_ge (v : pyval) (t : float) : result bool :=
  match as_number v with
  | Some (NFloat f) => Ok (t <=? f)%float
  | Some (NInt z) =>
    Ok match int_compare_float z t with Some (Eq | Gt) => true | _ => false end
  | None => Raise TypeError
  end.

(** ** Generic operations on values *)

(** [bool(v)] *)
Definition truthy (v : pyval) : bool :=
  match v with
  | PNone => false
  | PBool b => b
  | PInt z => negb (z =? 0)
  | PFloat f => negb (f =? 0)%float
  | PStr s => negb (String.eqb s EmptyString)
  | PList l => match l with [] => false | _ => true end
  | PDict d => negb (bool_decide (d = ∅))
  end.

(** [len(v)] *)
Definition py_len (v : pyval) : result nat :=
  match v with
  | PStr s => Ok (String.length s)
  | PList l => Ok (length l)
  | PDict d => Ok (size d)
  | _ => Raise TypeError
  end.

Definition hashable (v : pyval) : bool :=
  match v with
  | PList _ | PDict _ => false
  | _ => true
  end.

(** Position [i] of a sequence of length [n]; negative positions count from
    the end. *)
Definition position (i : Z) (n : nat) : option nat :=
  let j := if i <? 0 then Z.of_nat n + i else i in
  if (0 <=? j) && (j <? Z.of_nat n) then Some (Z.to_nat j) else None.

(** [v[k]] *)
Definition py_getitem (v k : pyval) : result pyval :=
  match v with
  | PDict d =>
    match k with
    | PStr s => match d !! s with Some x => Ok x | None => Raise KeyError end
    | _ => if hashable k then Raise KeyError else Raise TypeError
    end
  | PList l =>
    match as_number k with
    | Some (NInt i) =>
      match position i (length l) ≫= (l !!.) with
      | Some x => Ok x
      | None => Raise IndexError
      end
    | _ => Raise TypeError
    end
  | PStr s =>
    match as_number k with
    | Some (NInt i) =>
      match position i (String.length s) ≫= (λ j, String.get j s) with
      | Some c => Ok (PStr (String c EmptyString))
      | None => Raise IndexError
      end
    | _ => Raise TypeError
    end
  | _ => Raise TypeError
  end.

(** [v.get(k, dflt)] *)
Definition py_get (v : pyval) (k : string) (dflt : pyval) : result pyval :=
  match v with
  | PDict d => Ok (default dflt (d !! k))
  | _ => Raise AttributeError
  end.

(** [set(v.keys())] *)
Definition py_keys (v : pyval) : result (gset string) :=
  match v with
  | PDict d => Ok (dom d)
  | _ => Raise AttributeError
  end.

(** [v not in names], for a set of strings. *)
Definition py_not_in (v : pyval) (names : gset string) : result bool :=
  match v with
  | PStr s => Ok (bool_decide (s ∉ names))
  | _ => if hashable v then Ok true else Raise TypeError
  end.

(** ** The world: model handles and the clock

    [live_models] are the handles returned by [cactus_init] and not yet
    passed to [cactus_destroy]; [clock_reads] counts the calls of
    [time.time()].  A raised exception leaves the world as it was at the
    point of the raise. *)

Record world : Type := World {
  live_models : gset nat;
  next_model : nat;
  clock_reads : nat;
}.

Definition M (A : Type) : Type := world → result A * world.

#[global] Instance M_ret : MRet M := λ A a w, (Ok a, w).
#[global] Instance M_bind : MBind M := λ A B k m w,
  match m w with
  | (Ok a, w') => k a w'
  | (Raise e, w') => (Raise e, w')
  end.

Definition lift {A} (r : result A) : M A := λ w, (r, w).

(** ** Requests *)

Record message : Type := Message {
  role : string;
  content : string;
}.

Record property : Type := Property {
  ptype : string;
  pdescription : option string;
}.

Record parameters_t : Type := Parameters {
  properties : gmap string property;
  required : option (list string);
}.

Record tool : Type := Tool {
  name : string;
  description : string;
  parameters : parameters_t;
}.

(** What is handed to the on-device engine. *)
Record cactus_tool : Type := CactusTool {
  ct_type : string;
  ct_function : tool;
}.

Record completion_options : Type := CompletionOptions {
  force_tools : bool;
  max_tokens : Z;
  stop_sequences : list string;
}.

(** What is handed to, and comes back from, the cloud client. *)
Record schema : Type := Schema {
  s_type : string;
  s_description : string;
}.

Record object_schema : Type := ObjectSchema {
  o_type : string;
  o_properties : gmap string schema;
  o_required : list string;
}.

Record function_declaration : Type := FunctionDeclaration {
  fd_name : string;
  fd_description : string;
  fd_parameters : object_schema;
}.

Record gemini_tool : Type := GeminiTool {
  function_declarations : list function_declaration;
}.

Record function_call : Type := FunctionCall {
  fc_name : string;
  fc_args : gmap string pyval;
}.

(** A candidate is the list of the parts of its content; a part carries a
    function call or not. *)
Definition candidate : Type := list (option function_call).

(** ** What lies outside of the program *)

Class Runtime : Type := {
  (** [cactus_complete]: the text the engine produces, or the exception it
      raises *)
  engine_complete :
    list message → list cactus_tool → completion_options → result string;
  (** [json.loads] *)
  json_loads : string → result pyval;
  (** [os.environ.get("GEMINI_API_KEY")] *)
  gemini_api_key : option string;
  (** [genai.Client(api_key=...)] *)
  genai_Client : option string → result unit;
  (** [client.models.generate_content]: the candidates of the response *)
  generate_content :
    string → list string → list gemini_tool → result (list candidate);
  (** the successive readings of [time.time()] *)
  clock : nat → float;
}.

Definition functiongemma_path : string :=
  "cactus/weights/functiongemma-270m-it".

Definition cactus_init (path : string) : M nat := λ w,
  (Ok (next_model w),
   World ({[next_model w]} ∪ live_models w) (S (next_model w)) (clock_reads w)).

Definition cactus_destroy (model : nat) : M unit := λ w,
  (Ok (), World (live_models w ∖ {[model]}) (next_model w) (clock_reads w)).

Section Program.
Context {R : Runtime}.

Definition cactus_complete (model : nat) (messages : list message)
    (tools : list cactus_tool) (opts : completion_options) : M string :=
  lift (engine_complete messages tools opts).

Definition time_time : M float := λ w,
  (Ok (clock (clock_reads w)),
   World (live_models w) (next_model w) (S (clock_reads w))).

(** ** generate_cactus *)

Definition generate_cactus (messages : list message) (tools : list tool)
    : M (gmap string pyval) :=
  model ← cactus_init functiongemma_path;
  let cactus_tools := (λ t, CactusTool "function" t) <$> tools in
  raw_str ← cactus_complete model
    (Message "system" "You are a helpful assistant that can use tools."
       :: messages)
    cactus_tools
    (CompletionOptions true 256 ["<|im_end|>"; "<end_of_turn>"]);
  _ ← cactus_destroy model;
  match json_loads raw_str with
  | Raise JSONDecodeError =>
    mret (<["function_calls" := PList []]>
          (<["total_time_ms" := PInt 0]>
          (<["confidence" := PInt 0]> ∅)))
  | Raise e => lift (Raise e)
  | Ok raw =>
    function_calls ← lift (py_get raw "function_calls" (PList []));
    total_time_ms ← lift (py_get raw "total_time_ms" (PInt 0));
    confidence ← lift (py_get raw "confidence" (PInt 0));
    mret (<["function_calls" := function_calls]>
          (<["total_time_ms" := total_time_ms]>
          (<["confidence" := confidence]> ∅)))
  end.

(** ** generate_cloud *)

Definition gemini_declaration (t : tool) : function_declaration :=
  FunctionDeclaration (name t) (description t)
    (ObjectSchema "OBJECT"
       ((λ v, Schema (upper (ptype v)) (default EmptyString (pdescription v)))
          <$> properties (parameters t))
       (default [] (required (parameters t)))).

Definition user_contents (messages : list message) : list string :=
  content <$> filter (λ m, role m = "user") messages.

Definition cloud_call (c : function_call) : pyval :=
  PDict (<["name" := PStr (fc_name c)]>
        (<["arguments" := PDict (fc_args c)]> ∅)).

(** The two nested loops over candidates and parts. *)
Definition collect_calls (candidates : list candidate) : list pyval :=
  cloud_call <$> omap id (concat candidates).

Definition generate_cloud (messages : list message) (tools : list tool)
    : M (gmap string pyval) :=
  _ ← lift (genai_Client gemini_api_key);
  let gemini_tools := [GeminiTool (gemini_declaration <$> tools)] in
  let contents := user_contents messages in
  start_time ← time_time;
  candidates ← lift (generate_content "gemini-2.0-flash" contents gemini_tools);
  end_time ← time_time;
  let total_time_ms := ((end_time - start_time) * 1000)%float in
  let function_calls := collect_calls candidates in
  mret (<["function_calls" := PList function_calls]>
        (<["total_time_ms" := PFloat total_time_ms]> ∅)).

(** ** generate_hybrid *)

Definition complex_keywords : list string :=
  [" and "; " or "; " if "; "compare"; "difference"; "between";
   "calculate"; "then"; "after"].

Definition user_text (messages : list message) : string :=
  lower (join " " (user_contents messages)).

Definition is_complex (messages : list message) : bool :=
  existsb (λ k, contains k (user_text messages)) complex_keywords.

Definition valid_tool_names (tools : list tool) : gset string :=
  list_to_set (name <$> tools).

(** The dictionary comprehension: a later tool overwrites an earlier one
    of the same name. *)
Definition required_params (tools : list tool) : gmap string (gset string) :=
  foldl (λ m t, <[name t := list_to_set (default [] (required (parameters t)))]> m)
        ∅ tools.

(** The three statements that follow every cloud call:
    [cloud["source"] = label], [cloud["local_confidence"] = local_conf],
    [cloud["total_time_ms"] += local_time].  The augmented assignment is
    [x = x + y] for every value but a list, and what [generate_cloud] stores
    under that key is a float. *)
Definition merge (label : string) (local_conf local_time : pyval)
    (cloud : gmap string pyval) : result (gmap string pyval) :=
  let cloud := <["source" := PStr label]> cloud in
  let cloud := <["local_confidence" := local_conf]> cloud in
  t ← py_getitem (PDict cloud) (PStr "total_time_ms");
  t' ← py_add t local_time;
  Ok (<["total_time_ms" := t']> cloud).

Definition fallback (messages : list message) (tools : list tool)
    (label : string) (local_conf local_time : pyval) : M (gmap string pyval) :=
  cloud ← generate_cloud messages tools;
  lift (merge label local_conf local_time cloud).

Definition generate_hybrid (messages : list message) (tools : list tool)
    (confidence_threshold : float) : M (gmap string pyval) :=
  local ← generate_cactus messages tools;
  let local_calls := default (PList []) (local !! "function_calls") in
  let local_conf := default (PInt 0) (local !! "confidence") in
  let local_time := default (PInt 0) (local !! "total_time_ms") in
  let valid_tool_names := valid_tool_names tools in
  let fallback label := fallback messages tools label local_conf local_time in
  if negb (truthy local_calls) then fallback "cloud (fallback: no_calls)" else
  n ← lift (py_len local_calls);
  if (1 <? (n : nat))%nat then fallback "cloud (fallback: multi_call)" else
  call ← lift (py_getitem local_calls (PInt 0));
  call_name ← lift (py_getitem call (PStr "name"));
  unknown ← lift (py_not_in call_name valid_tool_names);
  if (unknown : bool) then fallback "cloud (fallback: invalid_tool)" else
  let required_params := required_params tools in
  call_name' ← lift (py_getitem call (PStr "name"));
  let required :=
    match (call_name' : pyval) with
    | PStr s => default ∅ (required_params !! s)
    | _ => ∅
    end in
  arguments ← lift (py_get call "arguments" (PDict ∅));
  provided ← lift (py_keys arguments);
  if negb (bool_decide (required ⊆ provided))
  then fallback "cloud (fallback: missing_args)" else
  if is_complex messages then fallback "cloud (fallback: complex_query)" else
  below ← lift (py_lt local_conf confidence_threshold);
  if (below : bool) then fallback "cloud (fallback: low_conf)" else
  mret (<["source" := PStr "on-device"]> local).

Definition default_confidence_threshold : float := 0.7%float.

End Program.

(** ** print_result

    What [print] was given, line by line, and how the call ended.  The two
    formatters are Python's own: [format(v, spec)], which is what a field
    [{v:spec}] of an f-string shows, and [json.dumps(v, indent=n)]; either
    may raise. *)

Class Presenter : Type := {
  py_format : pyval → string → option string;
  json_dumps : pyval → Z → option string;
}.

Inductive raised : Type :=
| Raised (e : exn)
| FormatRaised
| DumpsRaised.

Inductive outcome (A : Type) : Type :=
| Done (a : A)
| Stopped (why : raised).
Arguments Done {A} a.
Arguments Stopped {A} why.

Definition P (A : Type) : Type := list string * outcome A.

#[global] Instance P_ret : MRet P := λ A a, ([], Done a).
#[global] Instance P_bind : MBind P := λ A B k m,
  match m with
  | (out, Done a) => let (out', r) := k a in ((out ++ out')%list, r)
  | (out, Stopped why) => (out, Stopped why)
  end.

Definition print (line : string) : P unit := ([line], Done ()).

Definition try_ {A} (r : result A) : P A :=
  match r with
  | Ok a => ([], Done a)
  | Raise e => ([], Stopped (Raised e))
  end.

Definition newline : string := String (ascii_of_N 10) EmptyString.

(** [iter(v)]: the items a [for] loop goes through.  The keys of a
    dictionary come in an order that is not the one of Python. *)
Definition py_iter (v : pyval) : result (list pyval) :=
  match v with
  | PList l => Ok l
  | PStr s => Ok ((λ c, PStr (String c EmptyString)) <$> list_ascii_of_string s)
  | PDict d => Ok (PStr <$> (map_to_list d).*1)
  | _ => Raise TypeError
  end.

Section Presenting.
Context {F : Presenter}.

(** A field [{v}]: a string is shown as it is. *)
Definition show (v : pyval) : P string :=
  match v with
  | PStr s => mret s
  | _ => match py_format v EmptyString with
         | Some s => mret s
         | None => ([], Stopped FormatRaised)
         end
  end.

(** A field [{v:spec}]. *)
Definition show_as (spec : string) (v : pyval) : P string :=
  match py_format v spec with
  | Some s => mret s
  | None => ([], Stopped FormatRaised)
  end.

Definition dumps (v : pyval) (indent : Z) : P string :=
  match json_dumps v indent with
  | Some s => mret s
  | None => ([], Stopped DumpsRaised)
  end.

Definition print_call (call : pyval) : P unit :=
  call_name ← try_ (py_getitem call (PStr "name"));
  shown ← show call_name;
  _ ← print ("Function: " +:+ shown);
  arguments ← try_ (py_getitem call (PStr "arguments"));
  dumped ← dumps arguments 2;
  print ("Arguments: " +:+ dumped).

Fixpoint print_calls (calls : list pyval) : P unit :=
  match calls with
  | [] => mret ()
  | call :: rest => _ ← print_call call; print_calls rest
  end.

Definition print_result (label : string) (result : gmap string pyval) : P unit :=
  _ ← print (newline +:+ "=== " +:+ label +:+ " ===" +:+ newline);
  _ ← match result !! "source" with
      | Some v => shown ← show v; print ("Source: " +:+ shown)
      | None => mret ()
      end;
  _ ← match result !! "confidence" with
      | Some v => shown ← show_as ".4f" v; print ("Confidence: " +:+ shown)
      | None => mret ()
      end;
  _ ← match result !! "local_confidence" with
      | Some v =>
        shown ← show_as ".4f" v;
        print ("Local confidence (below threshold): " +:+ shown)
      | None => mret ()
      end;
  total_time_ms ← try_ (py_getitem (PDict result) (PStr "total_time_ms"));
  shown ← show_as ".2f" total_time_ms;
  _ ← print ("Total time: " +:+ shown +:+ "ms");
  function_calls ← try_ (py_getitem (PDict result) (PStr "function_calls"));
  calls ← try_ (py_iter function_calls);
  print_calls calls.

End Presenting.

(** ** Vocabulary of the statements *)

#[global] Instance exn_eq_dec : EqDecision exn.
Proof. solve_decision. Defined.

(** The world once the engine has answered: the handle has been taken and
    given back. *)
Definition released (w : world) : world :=
  World (({[next_model w]} ∪ live_models w) ∖ {[next_model w]})
        (S (next_model w)) (clock_reads w).

(** The world when the engine raised: the handle has been taken only. *)
Definition leaked (w : world) : world :=
  World ({[next_model w]} ∪ live_models w) (S (next_model w)) (clock_reads w).

(** What [generate_cactus] returns when the engine output does not parse. *)
Definition empty_result : gmap string pyval :=
  <["function_calls" := PList []]>
  (<["total_time_ms" := PInt 0]> (<["confidence" := PInt 0]> ∅)).

(** The outcome of the engine on the request [generate_cactus] builds. *)
Definition engine_output {R : Runtime} (messages : list message)
    (tools : list tool) : result string :=
  engine_complete
    (Message "system" "You are a helpful assistant that can use tools."
       :: messages)
    ((λ t, CactusTool "function" t) <$> tools)
    (CompletionOptions true 256 ["<|im_end|>"; "<end_of_turn>"]).

(** The fields of the local result the router reads. *)
Definition calls_of (local : gmap string pyval) : pyval :=
  default (PList []) (local !! "function_calls").
Definition conf_of (local : gmap string pyval) : pyval :=
  default (PInt 0) (local !! "confidence").
Definition time_of (local : gmap string pyval) : pyval :=
  default (PInt 0) (local !! "total_time_ms").

(** What a fallback returns once the cloud adapter has answered [cloud] and
    the addition of the two times gave [total]. *)
Definition merged (label : string) (local_conf total : pyval)
    (cloud : gmap string pyval) : gmap string pyval :=
  <["total_time_ms" := total]>
  (<["local_confidence" := local_conf]> (<["source" := PStr label]> cloud)).

Definition fallback_labels : list string :=
  ["cloud (fallback: no_calls)"; "cloud (fallback: multi_call)";
   "cloud (fallback: invalid_tool)"; "cloud (fallback: missing_args)";
   "cloud (fallback: complex_query)"; "cloud (fallback: low_conf)"].

(** ** Deterministic test doubles

    A runtime whose engine always produces [text], whose decoder always
    answers [decoded] (what it is given does not matter to it), and whose
    cloud model always answers [cloud].  Two readings of its clock are a
    quarter of a second apart. *)

Definition mock (text : result string) (decoded : result pyval)
    (cloud : result (list candidate)) : Runtime := {|
  engine_complete := λ _ _ _, text;
  json_loads := λ _, decoded;
  gemini_api_key := Some "test-key";
  genai_Client := λ _, Ok ();
  generate_content := λ _ _ _, cloud;
  clock := λ n, match n with O => 100%float | _ => 100.25%float end;
|}.

Definition world0 : world := World ∅ 0 0.

Definition get_weather : tool :=
  Tool "get_weather" "Get current weather for a location"
    (Parameters {["location" := Property "string" (Some "City name")]}
                (Some ["location"])).

Definition weather_call (args : gmap string pyval) : gmap string pyval :=
  <["name" := PStr "get_weather"]> (<["arguments" := PDict args]> ∅).

Definition in_SF : gmap string pyval := {["location" := PStr "SF"]}.

(** A call to a tool nobody declared, and without arguments. *)
Definition time_call : gmap string pyval := {["name" := PStr "get_time"]}.

(** A call to the declared tool that has lost its "arguments" key. *)
Definition bare_call : gmap string pyval := {["name" := PStr "get_weather"]}.

(** A call without a "name" key. *)
Definition nameless_call : gmap string pyval :=
  {["arguments" := PDict in_SF]}.

(** An engine output object without any of the three fields. *)
Definition stray_object : gmap string pyval := {["note" := PStr "hi"]}.

(** A tool without required parameters. *)
Definition get_time : tool :=
  Tool "get_time" "Get the current time" (Parameters ∅ None).

(** The local result for an engine output
    [{"function_calls": calls, "total_time_ms": 12.5, "confidence": conf}]. *)
Definition engine_record (calls : list pyval) (conf : pyval)
    : gmap string pyval :=
  <["function_calls" := PList calls]>
  (<["total_time_ms" := PFloat 12.5]> (<["confidence" := conf]> ∅)).

Definition cloud_answer : list candidate :=
  [[None; Some (FunctionCall "get_weather" {["location" := PStr "San Francisco"]})]].

(** What [generate_cloud] returns for that answer: a quarter of a second is
    250 milliseconds. *)
Definition cloud_record : gmap string pyval :=
  <["function_calls" :=
      PList [PDict (<["name" := PStr "get_weather"]>
                    (<["arguments" := PDict {["location" := PStr "San Francisco"]}]> ∅))]]>
  (<["total_time_ms" := PFloat 250]> ∅).

(** An engine whose output decodes to the object with these calls and this
    confidence; the text stands for its serialization. *)
Definition mock_engine (calls : list pyval) (conf : pyval) : Runtime :=
  mock (Ok "{...}") (Ok (PDict (engine_record calls conf))) (Ok cloud_answer).

Definition simple_question : list message :=
  [Message "user" "What is the weather in San Francisco?"].

Definition complex_question : list message :=
  [Message "user" "Compare the weather and calculate the difference"].

(** * Properties *)

(** ** Text *)

Lemma append_nil (b : string) : EmptyString +:+ b = b.
Proof. reflexivity. Qed.

Lemma append_cons (c : ascii) (a b : string) :
  String c a +:+ b = String c (a +:+ b).
Proof. reflexivity. Qed.

Lemma prefix_app (k b : string) : String.prefix k (k +:+ b) = true.
Proof.
  induction k as [|c k IH]; [rewrite append_nil; by destruct b |].
  rewrite append_cons. simpl.
  destruct (ascii_dec c c); [exact IH | congruence].
Qed.

Lemma prefix_split (k s : string) :
  String.prefix k s = true → ∃ b, s = k +:+ b.
Proof.
  revert s. induction k as [|c k IH]; intros s H.
  - by exists s.
  - destruct s as [|d s]; [done |]. simpl in H.
    destruct (ascii_dec c d) as [-> |]; [| done].
    destruct (IH _ H) as [b ->]. by exists b.
Qed.

(** [contains] is the substring test. *)
Lemma contains_spec (k s : string) :
  contains k s = true ↔ ∃ a b, s = a +:+ k +:+ b.
Proof.
  split.
  - induction s as [|c s IH]; intros H.
    + unfold contains in H. rewrite orb_false_r in H.
      destruct (prefix_split _ _ H) as [b Hb]. by exists EmptyString, b.
    + change (String.prefix k (String c s) || contains k s = true) in H.
      apply orb_true_iff in H as [H | H].
      * destruct (prefix_split _ _ H) as [b Hb]. by exists EmptyString, b.
      * destruct (IH H) as (a & b & ->). by exists (String c a), b.
  - intros (a & b & ->). induction a as [|c a IH].
    + rewrite append_nil. pose proof (prefix_app k b) as H.
      destruct (k +:+ b); unfold contains; fold contains; by rewrite H.
    + rewrite append_cons.
      change (String.prefix k (String c (a +:+ k +:+ b))
              || contains k (a +:+ k +:+ b) = true).
      rewrite IH. apply orb_true_r.
Qed.

(** ** The monad *)

Lemma bind_run {A B} (m : M A) (k : A → M B) w a w1 :
  m w = (Ok a, w1) → (m ≫= k) w = k a w1.
Proof. intros H. unfold mbind, M_bind. by rewrite H. Qed.

Lemma bind_raise {A B} (m : M A) (k : A → M B) w e w1 :
  m w = (Raise e, w1) → (m ≫= k) w = (Raise e, w1).
Proof. intros H. unfold mbind, M_bind. by rewrite H. Qed.

Lemma bind_inv {A B} (m : M A) (k : A → M B) w b w2 :
  (m ≫= k) w = (Ok b, w2) → ∃ a w1, m w = (Ok a, w1) ∧ k a w1 = (Ok b, w2).
Proof.
  unfold mbind, M_bind. destruct (m w) as [[a | e] w1]; [eauto | done].
Qed.

Lemma lift_inv {A} (r : result A) w a w1 :
  lift r w = (Ok a, w1) → r = Ok a ∧ w1 = w.
Proof. unfold lift. by intros [= -> ->]. Qed.

(** ** Numbers *)

Lemma ltb_irrefl (x : float) : (x <? x)%float = false.
Proof.
  rewrite ltb_spec. unfold SFltb, SFcompare.
  destruct (Prim2SF x) as [s | s | | s m e]; try done; destruct s; try done;
    by rewrite Z.compare_refl, Pos.compare_cont_refl.
Qed.

Lemma SFcompare_antisym (x y : spec_float) c :
  SFcompare x y = Some c → SFcompare y x = Some (CompOpp c).
Proof.
  destruct x as [s | s | | s m e], y as [s' | s' | | s' m' e']; simpl;
    try done; intros [= <-]; try (by destruct s); try (by destruct s');
    try (by destruct s, s').
  destruct s, s'; try done; rewrite (Z.compare_antisym e e');
    destruct (e ?= e') eqn:E; simpl; try done;
    by rewrite (Pos.compare_cont_antisym m m' Eq).
Qed.

Lemma leb_not_ltb (x y : float) : (x <=? y)%float = true → (y <? x)%float = false.
Proof.
  rewrite leb_spec, ltb_spec. unfold SFleb, SFltb.
  destruct (SFcompare (Prim2SF x) (Prim2SF y)) as [c|] eqn:E; [| done].
  rewrite (SFcompare_antisym _ _ _ E). by destruct c.
Qed.

(** A confidence that is at least the threshold is not below it. *)
Lemma py_ge_not_lt (v : pyval) (t : float) :
  py_ge v t = Ok true → py_lt v t = Ok false.
Proof.
  unfold py_ge, py_lt. destruct (as_number v) as [[z | f] |]; [| | done].
  - destruct (int_compare_float z t) as [[] |]; by intros [=].
  - intros [= H]. by rewrite (leb_not_ltb _ _ H).
Qed.

Lemma py_lt_same (t : float) : py_lt (PFloat t) t = Ok false.
Proof. unfold py_lt; simpl. by rewrite ltb_irrefl. Qed.

(** ** The definitions on small inputs *)

Example int_below_float : py_lt (PInt 0) 0.7 = Ok true.
Proof. vm_compute. reflexivity. Qed.

Example int_above_float : py_lt (PInt 1) 0.7 = Ok false.
Proof. vm_compute. reflexivity. Qed.

Example int_float_exact : py_lt (PInt (2 ^ 53 - 1)) 9007199254740992 = Ok true.
Proof. vm_compute. reflexivity. Qed.

Example nan_not_below : py_lt (PFloat nan) 0.7 = Ok false.
Proof. vm_compute. reflexivity. Qed.

Example float_of_int_rounds : float_of_int (2 ^ 53 + 1) = Ok 9007199254740992%float.
Proof. vm_compute. reflexivity. Qed.

Example float_of_int_overflows : float_of_int (2 ^ 1024) = Raise OverflowError.
Proof. vm_compute. reflexivity. Qed.

Example add_float_int : py_add (PFloat 250) (PInt 12) = Ok (PFloat 262).
Proof. vm_compute. reflexivity. Qed.

Example add_float_none : py_add (PFloat 250) PNone = Raise TypeError.
Proof. vm_compute. reflexivity. Qed.

Example last_item : py_getitem (PList [PInt 1; PInt 2]) (PInt (-1)) = Ok (PInt 2).
Proof. vm_compute. reflexivity. Qed.

Example word_fragment : contains "then" "is it warmer than yesterday" = false.
Proof. reflexivity. Qed.

Example and_alone : contains " and " (lower "Tylenol and Advil") = true.
Proof. reflexivity. Qed.

Example label_suffix :
  endswith "cloud (fallback: no_calls)" "fallback: no_calls)" = true.
Proof. reflexivity. Qed.

(** ** Test doubles run *)

Example simple_question_text :
  user_text simple_question = "what is the weather in san francisco?".
Proof. reflexivity. Qed.

Example simple_question_not_complex : is_complex simple_question = false.
Proof. reflexivity. Qed.

Example complex_question_complex : is_complex complex_question = true.
Proof. reflexivity. Qed.

Example cloud_runs :
  generate_cloud (R := mock_engine [] PNone) simple_question [get_weather] world0
  = (Ok cloud_record, World ∅ 0 2).
Proof. vm_compute. reflexivity. Qed.

(** Each of the six reasons, and the acceptance, on the test doubles. *)

Example no_calls_runs :
  generate_hybrid (R := mock_engine [] (PFloat 0.95))
    simple_question [get_weather] default_confidence_threshold world0
  = (Ok (merged "cloud (fallback: no_calls)" (PFloat 0.95) (PFloat 262.5)
           cloud_record), World ∅ 1 2).
Proof. vm_compute. reflexivity. Qed.

Example unparsable_runs :
  generate_hybrid
    (R := mock (Ok "not json") (Raise JSONDecodeError) (Ok cloud_answer))
    simple_question [get_weather] default_confidence_threshold world0
  = (Ok (merged "cloud (fallback: no_calls)" (PInt 0) (PFloat 250)
           cloud_record), World ∅ 1 2).
Proof. vm_compute. reflexivity. Qed.

Example multi_call_runs :
  generate_hybrid
    (R := mock_engine [PDict (weather_call in_SF); PDict (weather_call in_SF)]
            (PFloat 0.95))
    simple_question [get_weather] default_confidence_threshold world0
  = (Ok (merged "cloud (fallback: multi_call)" (PFloat 0.95) (PFloat 262.5)
           cloud_record), World ∅ 1 2).
Proof. vm_compute. reflexivity. Qed.

Example invalid_tool_runs :
  generate_hybrid (R := mock_engine [PDict time_call] (PFloat 0.95))
    simple_question [get_weather] default_confidence_threshold world0
  = (Ok (merged "cloud (fallback: invalid_tool)" (PFloat 0.95) (PFloat 262.5)
           cloud_record), World ∅ 1 2).
Proof. vm_compute. reflexivity. Qed.

Example missing_args_runs :
  generate_hybrid (R := mock_engine [PDict (weather_call ∅)] (PFloat 0.95))
    simple_question [get_weather] default_confidence_threshold world0
  = (Ok (merged "cloud (fallback: missing_args)" (PFloat 0.95) (PFloat 262.5)
           cloud_record), World ∅ 1 2).
Proof. vm_compute. reflexivity. Qed.

Example complex_query_runs :
  generate_hybrid (R := mock_engine [PDict (weather_call in_SF)] (PFloat 1))
    complex_question [get_weather] default_confidence_threshold world0
  = (Ok (merged "cloud (fallback: complex_query)" (PFloat 1) (PFloat 262.5)
           cloud_record), World ∅ 1 2).
Proof. vm_compute. reflexivity. Qed.

Example low_conf_runs :
  generate_hybrid (R := mock_engine [PDict (weather_call in_SF)] (PFloat 0.5))
    simple_question [get_weather] default_confidence_threshold world0
  = (Ok (merged "cloud (fallback: low_conf)" (PFloat 0.5) (PFloat 262.5)
           cloud_record), World ∅ 1 2).
Proof. vm_compute. reflexivity. Qed.

Example accept_runs :
  generate_hybrid (R := mock_engine [PDict (weather_call in_SF)] (PFloat 0.95))
    simple_question [get_weather] default_confidence_threshold world0
  = (Ok (<["source" := PStr "on-device"]>
           (engine_record [PDict (weather_call in_SF)] (PFloat 0.95))),
     World ∅ 1 0).
Proof. vm_compute. reflexivity. Qed.

(** A call without arguments to a tool that requires none is accepted. *)
Example no_requirement_runs :
  generate_hybrid (R := mock_engine [PDict time_call] (PFloat 0.95))
    simple_question [get_weather; get_time] default_confidence_threshold world0
  = (Ok (<["source" := PStr "on-device"]>
           (engine_record [PDict time_call] (PFloat 0.95))),
     World ∅ 1 0).
Proof. vm_compute. reflexivity. Qed.

(** An integer confidence is compared exactly, and a confidence that is a
    string makes the comparison raise. *)
Example integer_confidence_runs :
  generate_hybrid (R := mock_engine [PDict (weather_call in_SF)] (PInt 1))
    simple_question [get_weather] default_confidence_threshold world0
  = (Ok (<["source" := PStr "on-device"]>
           (engine_record [PDict (weather_call in_SF)] (PInt 1))),
     World ∅ 1 0).
Proof. vm_compute. reflexivity. Qed.

Example string_confidence_raises :
  generate_hybrid (R := mock_engine [PDict (weather_call in_SF)] (PStr "high"))
    simple_question [get_weather] default_confidence_threshold world0
  = (Raise TypeError, World ∅ 1 0).
Proof. vm_compute. reflexivity. Qed.

(** A cloud failure is not caught. *)
Example cloud_failure_propagates :
  generate_hybrid
    (R := mock (Ok "{}") (Ok (PDict ∅)) (Raise (CloudError "unavailable")))
    simple_question [get_weather] default_confidence_threshold world0
  = (Raise (CloudError "unavailable"), World ∅ 1 1).
Proof. vm_compute. reflexivity. Qed.

(** ** Tool tables *)

Lemma required_params_lookup (tools : list tool) (n : string) (s : gset string) :
  required_params tools !! n = Some s →
  ∃ t, t ∈ tools ∧ name t = n ∧
       s = list_to_set (default [] (required (parameters t))).
Proof.
  unfold required_params.
  assert (∀ m0 : gmap string (gset string),
    foldl (λ m t, <[name t := list_to_set (default [] (required (parameters t)))]> m)
      m0 tools !! n = Some s →
    m0 !! n = Some s ∨
    ∃ t, t ∈ tools ∧ name t = n ∧
         s = list_to_set (default [] (required (parameters t)))) as G.
  { induction tools as [|t tools IH]; intros m0 H; simpl in H; [by left |].
    destruct (IH _ H) as [H0 | (t' & Hin & Hn & Hs)].
    - destruct (decide (name t = n)) as [Heq | Hne].
      + rewrite Heq, lookup_insert_eq in H0. injection H0 as <-.
        right. exists t. split; [left | done].
      + rewrite lookup_insert_ne in H0 by done. by left.
    - right. exists t'. split; [by right | done]. }
  intros H. destruct (G ∅ H) as [H0 | H0]; [| done].
  by rewrite lookup_empty in H0.
Qed.

Lemma required_params_declared (tools : list tool) (n : string) :
  n ∈ valid_tool_names tools → is_Some (required_params tools !! n).
Proof.
  unfold valid_tool_names, required_params. rewrite elem_of_list_to_set.
  assert (∀ m0 : gmap string (gset string),
    n ∈ name <$> tools ∨ is_Some (m0 !! n) →
    is_Some (foldl (λ m t, <[name t := list_to_set (default [] (required (parameters t)))]> m)
               m0 tools !! n)) as G.
  { induction tools as [|t tools IH]; intros m0 H; simpl.
    - destruct H as [H | H]; [by apply elem_of_nil in H | done].
    - apply IH. destruct H as [H | H].
      + apply elem_of_cons in H as [-> | H]; [right | by left].
        by rewrite lookup_insert_eq.
      + right. rewrite lookup_insert. case_decide; [done | exact H]. }
  intros H. apply G. by left.
Qed.

(** The required set looked up for a declared name is covered by the
    arguments as soon as every tool of that name has its required
    parameters among them. *)
Lemma required_covered (tools : list tool) (n : string) (provided : gset string) :
  (∀ t, t ∈ tools → name t = n →
     ∀ p, p ∈ default [] (required (parameters t)) → p ∈ provided) →
  default ∅ (required_params tools !! n) ⊆ provided.
Proof.
  intros H. destruct (required_params tools !! n) as [s|] eqn:E; simpl.
  - destruct (required_params_lookup _ _ _ E) as (t & Hin & Hn & ->).
    intros p Hp. apply elem_of_list_to_set in Hp. by apply (H t).
  - set_solver.
Qed.

Lemma required_not_covered (tools : list tool) (n : string) :
  n ∈ valid_tool_names tools →
  (∀ t, t ∈ tools → name t = n → default [] (required (parameters t)) ≠ []) →
  default ∅ (required_params tools !! n) ⊈ (∅ : gset string).
Proof.
  intros Hn H. destruct (required_params_declared _ _ Hn) as [s E].
  rewrite E. simpl.
  destruct (required_params_lookup _ _ _ E) as (t & Hin & Hnm & ->).
  specialize (H t Hin Hnm).
  destruct (default [] (required (parameters t))) as [|p l]; [done |].
  intros Hsub. apply (not_elem_of_empty (C := gset string) p), Hsub.
  apply elem_of_list_to_set. left.
Qed.

Lemma is_complex_false (messages : list message) :
  (∀ k, k ∈ complex_keywords → contains k (user_text messages) = false) →
  is_complex messages = false.
Proof.
  intros H. unfold is_complex. apply not_true_is_false. intros E.
  apply existsb_exists in E as (k & Hin & Hk).
  apply list_elem_of_In in Hin. by rewrite (H k Hin) in Hk.
Qed.

Lemma is_complex_true (messages : list message) (k : string) :
  k ∈ complex_keywords → contains k (user_text messages) = true →
  is_complex messages = true.
Proof.
  intros Hin Hk. unfold is_complex. apply existsb_exists.
  exists k. split; [by apply list_elem_of_In | done].
Qed.

(** ** The two adapters *)

Section Adapters.
Context {R : Runtime}.
Implicit Types (messages : list message) (tools : list tool) (w : world).

Lemma bind_lift_ok {A B} (a : A) (k : A → M B) w :
  (lift (Ok a) ≫= k) w = k a w.
Proof. reflexivity. Qed.

Lemma generate_cactus_unparsable messages tools w text :
  engine_output messages tools = Ok text →
  json_loads text = Raise JSONDecodeError →
  generate_cactus messages tools w = (Ok empty_result, released w).
Proof.
  unfold engine_output, generate_cactus. intros He Hj.
  unfold mbind at 1, M_bind at 1. simpl.
  unfold cactus_complete, mbind at 1, M_bind at 1, lift. rewrite He. simpl.
  by rewrite Hj.
Qed.

Lemma generate_cactus_object messages tools w text d :
  engine_output messages tools = Ok text →
  json_loads text = Ok (PDict d) →
  generate_cactus messages tools w =
  (Ok (<["function_calls" := default (PList []) (d !! "function_calls")]>
        (<["total_time_ms" := default (PInt 0) (d !! "total_time_ms")]>
        (<["confidence" := default (PInt 0) (d !! "confidence")]> ∅))),
   released w).
Proof.
  unfold engine_output, generate_cactus. intros He Hj.
  unfold mbind at 1, M_bind at 1. simpl.
  unfold cactus_complete, mbind at 1, M_bind at 1, lift. rewrite He. simpl.
  by rewrite Hj.
Qed.

Lemma generate_cactus_not_object messages tools w text v :
  engine_output messages tools = Ok text →
  json_loads text = Ok v →
  (∀ d, v ≠ PDict d) →
  generate_cactus messages tools w = (Raise AttributeError, released w).
Proof.
  unfold engine_output, generate_cactus. intros He Hj Hv.
  unfold mbind at 1, M_bind at 1. simpl.
  unfold cactus_complete, mbind at 1, M_bind at 1, lift. rewrite He. simpl.
  rewrite Hj. destruct v; try done. by destruct (Hv d).
Qed.

Lemma generate_cactus_engine_raises messages tools w e :
  engine_output messages tools = Raise e →
  generate_cactus messages tools w = (Raise e, leaked w).
Proof.
  unfold engine_output, generate_cactus. intros He.
  unfold mbind at 1, M_bind at 1. simpl.
  unfold cactus_complete, mbind at 1, M_bind at 1, lift. by rewrite He.
Qed.

Lemma released_not_live w : next_model w ∉ live_models (released w).
Proof. unfold released; simpl. apply not_elem_of_difference. right. by apply elem_of_singleton. Qed.

Lemma leaked_live w : next_model w ∈ live_models (leaked w).
Proof. unfold leaked; simpl. apply elem_of_union. left. by apply elem_of_singleton. Qed.

(** When the engine returns, the handle is given back whatever the decoder
    does with the text. *)
Lemma generate_cactus_releases messages tools w text res w' :
  engine_output messages tools = Ok text →
  generate_cactus messages tools w = (res, w') →
  w' = released w ∧ next_model w ∉ live_models w'.
Proof.
  unfold engine_output, generate_cactus. intros He.
  unfold mbind at 1, M_bind at 1. simpl.
  unfold cactus_complete, mbind at 1, M_bind at 1, lift. rewrite He. simpl.
  intros H.
  assert (w' = released w) as ->; [| split; [done | apply released_not_live]].
  destruct (json_loads text) as [v | e].
  - destruct v; simpl in H; by injection H as _ <-.
  - destruct e; simpl in H; by injection H as _ <-.
Qed.

(** Whatever [generate_cactus] returns has the three keys. *)
Lemma generate_cactus_shape messages tools w local w1 :
  generate_cactus messages tools w = (Ok local, w1) →
  ∃ calls time conf,
    local = <["function_calls" := calls]>
            (<["total_time_ms" := time]> (<["confidence" := conf]> ∅)).
Proof.
  intros H. destruct (engine_output messages tools) as [text | e] eqn:He.
  - destruct (json_loads text) as [v | e] eqn:Hj.
    + destruct v;
        try (rewrite (generate_cactus_not_object _ _ _ _ _ He Hj) in H; done).
      rewrite (generate_cactus_object _ _ _ _ _ He Hj) in H.
      injection H as <- _. eauto.
    + destruct (decide (e = JSONDecodeError)) as [-> | Hne].
      * rewrite (generate_cactus_unparsable _ _ _ _ He Hj) in H.
        injection H as <- _. unfold empty_result. eauto.
      * exfalso. revert H. unfold engine_output in He. unfold generate_cactus.
        unfold mbind at 1, M_bind at 1. simpl.
        unfold cactus_complete, mbind at 1, M_bind at 1, lift.
        rewrite He. simpl. rewrite Hj. by destruct e.
  - by rewrite (generate_cactus_engine_raises _ _ _ _ He) in H.
Qed.

Lemma generate_cloud_shape messages tools w cloud w' :
  generate_cloud messages tools w = (Ok cloud, w') →
  ∃ calls t, cloud = <["function_calls" := PList calls]>
                     (<["total_time_ms" := PFloat t]> ∅).
Proof.
  unfold generate_cloud. intros H.
  apply bind_inv in H as (? & ? & _ & H).
  apply bind_inv in H as (? & ? & _ & H).
  apply bind_inv in H as (? & ? & _ & H).
  apply bind_inv in H as (? & ? & _ & H).
  injection H as <- _. eauto.
Qed.

(** The cloud call leaves the model handles alone. *)
Lemma generate_cloud_models messages tools w res w' :
  generate_cloud messages tools w = (res, w') →
  live_models w' = live_models w.
Proof.
  unfold generate_cloud, mbind, M_bind, lift, time_time. simpl.
  destruct (genai_Client gemini_api_key); [| by intros [= _ <-]].
  destruct (generate_content _ _ _); by intros [= _ <-].
Qed.

End Adapters.

(** ** The merge *)

Lemma merge_cloud label (local_conf local_time : pyval) calls (t : float) :
  merge label local_conf local_time
    (<["function_calls" := PList calls]> (<["total_time_ms" := PFloat t]> ∅))
  = total ← py_add (PFloat t) local_time;
    Ok (merged label local_conf total
          (<["function_calls" := PList calls]>
           (<["total_time_ms" := PFloat t]> ∅))).
Proof. reflexivity. Qed.

Lemma py_add_floats (a b : float) :
  py_add (PFloat a) (PFloat b) = Ok (PFloat (a + b)%float).
Proof. reflexivity. Qed.

Lemma merged_source label c total cloud :
  merged label c total cloud !! "source" = Some (PStr label).
Proof.
  unfold merged. do 2 (rewrite lookup_insert_ne by done).
  by rewrite lookup_insert_eq.
Qed.

Lemma merged_local_confidence label c total cloud :
  merged label c total cloud !! "local_confidence" = Some c.
Proof.
  unfold merged. rewrite lookup_insert_ne by done. by rewrite lookup_insert_eq.
Qed.

Lemma merged_total_time label c total cloud :
  merged label c total cloud !! "total_time_ms" = Some total.
Proof. unfold merged. by rewrite lookup_insert_eq. Qed.

Lemma merged_function_calls label c total cloud :
  merged label c total cloud !! "function_calls" = cloud !! "function_calls".
Proof. unfold merged. by do 3 (rewrite lookup_insert_ne by done). Qed.

Lemma merged_dom label c total calls (t : float) :
  dom (merged label c total
         (<["function_calls" := PList calls]> (<["total_time_ms" := PFloat t]> ∅)))
  = ({["function_calls"; "total_time_ms"; "source"; "local_confidence"]}
      : gset string).
Proof. unfold merged. rewrite !dom_insert_L, dom_empty_L. set_solver. Qed.

(** ** The router, branch by branch *)

Section Routing.
Context {R : Runtime}.
Implicit Types (messages : list message) (tools : list tool) (w : world).

Lemma fallback_inv messages tools label c t w1 r w' :
  fallback messages tools label c t w1 = (Ok r, w') →
  ∃ cloud total,
    generate_cloud messages tools w1 = (Ok cloud, w') ∧
    (∃ calls ct, cloud = <["function_calls" := PList calls]>
                         (<["total_time_ms" := PFloat ct]> ∅) ∧
                 py_add (PFloat ct) t = Ok total) ∧
    r = merged label c total cloud.
Proof.
  unfold fallback. intros H.
  apply bind_inv in H as (cloud & w2 & Hc & H).
  apply lift_inv in H as [H ->].
  destruct (generate_cloud_shape _ _ _ _ _ Hc) as (calls & ct & ->).
  rewrite merge_cloud in H.
  destruct (py_add (PFloat ct) t) as [total|] eqn:E; [| done].
  injection H as <-. eexists _, total. split; [exact Hc |]. eauto 10.
Qed.

Lemma fallback_returns messages tools label c t w1 cloud w2 ct total :
  generate_cloud messages tools w1 = (Ok cloud, w2) →
  cloud !! "total_time_ms" = Some ct →
  py_add ct t = Ok total →
  fallback messages tools label c t w1 = (Ok (merged label c total cloud), w2).
Proof.
  intros Hc Hct Hadd. unfold fallback. rewrite (bind_run _ _ _ _ _ Hc).
  destruct (generate_cloud_shape _ _ _ _ _ Hc) as (calls & ct' & ->).
  rewrite lookup_insert_ne, lookup_insert_eq in Hct by done.
  injection Hct as <-. unfold lift. by rewrite merge_cloud, Hadd.
Qed.

Section Branches.
Variables (messages : list message) (tools : list tool) (thr : float).
Variables (w w1 : world) (local : gmap string pyval).
Hypothesis Hlocal : generate_cactus messages tools w = (Ok local, w1).

Local Abbreviation fall label :=
  (fallback messages tools label (conf_of local) (time_of local) w1).

Ltac enter :=
  unfold generate_hybrid; rewrite (bind_run _ _ _ _ _ Hlocal); cbv zeta;
  change (default (PList []) (local !! "function_calls")) with (calls_of local);
  change (default (PInt 0) (local !! "confidence")) with (conf_of local);
  change (default (PInt 0) (local !! "total_time_ms")) with (time_of local).
Ltac step H := rewrite H; cbn [negb]; rewrite ?bind_lift_ok.

Lemma hybrid_no_calls :
  truthy (calls_of local) = false →
  generate_hybrid messages tools thr w = fall "cloud (fallback: no_calls)".
Proof. intros H. enter. by step H. Qed.

Lemma hybrid_multi_call n :
  truthy (calls_of local) = true → py_len (calls_of local) = Ok n → (1 < n)%nat →
  generate_hybrid messages tools thr w = fall "cloud (fallback: multi_call)".
Proof.
  intros H Hn Hlt. enter. step H. step Hn.
  by rewrite (proj2 (Nat.ltb_lt 1 n) Hlt).
Qed.

Variable call : pyval.
Hypothesis Hcalls : local !! "function_calls" = Some (PList [call]).

Ltac single :=
  let E := fresh in
  assert (calls_of local = PList [call]) as E
    by (unfold calls_of; by rewrite Hcalls);
  enter; rewrite E; clear E; cbn [negb truthy py_len length];
  rewrite bind_lift_ok; cbn [Nat.ltb Nat.leb];
  change (py_getitem (PList [call]) (PInt 0)) with (Ok call);
  rewrite bind_lift_ok.

Lemma hybrid_name_raises e :
  py_getitem call (PStr "name") = Raise e →
  generate_hybrid messages tools thr w = (Raise e, w1).
Proof. intros H. single. by rewrite H. Qed.

Variable call_name : pyval.
Hypothesis Hname : py_getitem call (PStr "name") = Ok call_name.

Lemma hybrid_invalid_tool :
  py_not_in call_name (valid_tool_names tools) = Ok true →
  generate_hybrid messages tools thr w = fall "cloud (fallback: invalid_tool)".
Proof. intros H. single. step Hname. by step H. Qed.

Variables (n : string) (args : gmap string pyval).
Hypothesis Hstr : call_name = PStr n.
Hypothesis Hdeclared : n ∈ valid_tool_names tools.
Hypothesis Hargs : py_get call "arguments" (PDict ∅) = Ok (PDict args).

Local Abbreviation required := (default ∅ (required_params tools !! n)).

Ltac declared :=
  let E := fresh in
  assert (py_not_in call_name (valid_tool_names tools) = Ok false) as E
    by (rewrite Hstr; simpl; rewrite bool_decide_eq_false_2; [done | tauto]);
  single; step Hname; step E; clear E; step Hargs;
  cbn [py_keys]; rewrite bind_lift_ok; rewrite Hstr.

Lemma hybrid_missing_args :
  required ⊈ dom args →
  generate_hybrid messages tools thr w = fall "cloud (fallback: missing_args)".
Proof. intros H. declared. by rewrite bool_decide_eq_false_2. Qed.

Hypothesis Hcovered : required ⊆ dom args.

Lemma hybrid_complex_query :
  is_complex messages = true →
  generate_hybrid messages tools thr w = fall "cloud (fallback: complex_query)".
Proof.
  intros H. declared. rewrite bool_decide_eq_true_2 by done. cbn [negb].
  by rewrite H.
Qed.

Hypothesis Hsimple : is_complex messages = false.

Lemma hybrid_conf_raises e :
  py_lt (conf_of local) thr = Raise e →
  generate_hybrid messages tools thr w = (Raise e, w1).
Proof.
  intros H. declared. rewrite bool_decide_eq_true_2 by done. cbn [negb].
  rewrite Hsimple. by rewrite H.
Qed.

Lemma hybrid_low_conf :
  py_lt (conf_of local) thr = Ok true →
  generate_hybrid messages tools thr w = fall "cloud (fallback: low_conf)".
Proof.
  intros H. declared. rewrite bool_decide_eq_true_2 by done. cbn [negb].
  rewrite Hsimple. by step H.
Qed.

Lemma hybrid_accept :
  py_lt (conf_of local) thr = Ok false →
  generate_hybrid messages tools thr w =
  (Ok (<["source" := PStr "on-device"]> local), w1).
Proof.
  intros H. declared. rewrite bool_decide_eq_true_2 by done. cbn [negb].
  rewrite Hsimple. by step H.
Qed.

End Branches.
End Routing.

(** ** Every returned result is an acceptance or one of the six fallbacks *)

Section Inversion.
Context {R : Runtime}.

Ltac fell :=
  right; eexists; split; [| eassumption];
  unfold fallback_labels; repeat first [by left | right].

Lemma generate_hybrid_inv messages tools thr w r w' :
  generate_hybrid messages tools thr w = (Ok r, w') →
  ∃ local w1,
    generate_cactus messages tools w = (Ok local, w1) ∧
    ((r = <["source" := PStr "on-device"]> local ∧ w' = w1) ∨
     ∃ label, label ∈ fallback_labels ∧
       fallback messages tools label (conf_of local) (time_of local) w1
       = (Ok r, w')).
Proof.
  unfold generate_hybrid. intros H.
  apply bind_inv in H as (local & w1 & Hl & H). exists local, w1.
  split; [exact Hl |]. cbv zeta in H.
  destruct (negb (truthy _)); [fell |].
  apply bind_inv in H as (n & ? & [_ ->]%lift_inv & H).
  destruct (1 <? n)%nat; [fell |].
  apply bind_inv in H as (call & ? & [_ ->]%lift_inv & H).
  apply bind_inv in H as (nm & ? & [_ ->]%lift_inv & H).
  apply bind_inv in H as (unknown & ? & [_ ->]%lift_inv & H).
  destruct unknown; [fell |].
  apply bind_inv in H as (nm' & ? & [_ ->]%lift_inv & H).
  apply bind_inv in H as (arguments & ? & [_ ->]%lift_inv & H).
  apply bind_inv in H as (provided & ? & [_ ->]%lift_inv & H).
  destruct (negb (bool_decide _)); [fell |].
  destruct (is_complex messages); [fell |].
  apply bind_inv in H as (below & ? & [_ ->]%lift_inv & H).
  destruct below; [fell |].
  left. by injection H as <- <-.
Qed.

Lemma on_device_label : "on-device" ∉ fallback_labels.
Proof.
  unfold fallback_labels. intros H.
  repeat (apply elem_of_cons in H as [H | H]; [done |]).
  by apply elem_of_nil in H.
Qed.

(** A returned result whose source is not "on-device" was merged from the
    answer of the cloud adapter. *)
Lemma generate_hybrid_fallback_inv messages tools thr w r w' :
  generate_hybrid messages tools thr w = (Ok r, w') →
  r !! "source" ≠ Some (PStr "on-device") →
  ∃ local w1 label cloud calls ct total,
    generate_cactus messages tools w = (Ok local, w1) ∧
    generate_cloud messages tools w1 = (Ok cloud, w') ∧
    label ∈ fallback_labels ∧
    cloud = <["function_calls" := PList calls]>
            (<["total_time_ms" := PFloat ct]> ∅) ∧
    py_add (PFloat ct) (time_of local) = Ok total ∧
    r = merged label (conf_of local) total cloud.
Proof.
  intros H Hsrc.
  destruct (generate_hybrid_inv _ _ _ _ _ _ H)
    as (local & w1 & Hl & [[-> _] | (label & Hin & Hf)]).
  - by rewrite lookup_insert_eq in Hsrc.
  - destruct (fallback_inv _ _ _ _ _ _ _ _ Hf)
      as (cloud & total & Hc & (calls & ct & -> & Hadd) & ->).
    exists local, w1, label. eauto 12.
Qed.

End Inversion.

(** * The claims *)

Implicit Types (messages : list message) (tools : list tool) (w : world)
  (local cloud call args : gmap string pyval).

Lemma declared_name tools (n : string) :
  n ∈ name <$> tools ↔ n ∈ valid_tool_names tools.
Proof. unfold valid_tool_names. by rewrite elem_of_list_to_set. Qed.

Lemma name_of_call call (n : string) :
  call !! "name" = Some (PStr n) →
  py_getitem (PDict call) (PStr "name") = Ok (PStr n).
Proof. intros H. simpl. by rewrite H. Qed.

Lemma arguments_of_call call args :
  default (PDict ∅) (call !! "arguments") = PDict args →
  py_get (PDict call) "arguments" (PDict ∅) = Ok (PDict args).
Proof. intros H. simpl. by rewrite H. Qed.

Lemma conf_of_lookup local conf :
  local !! "confidence" = Some conf → conf_of local = conf.
Proof. intros H. unfold conf_of. by rewrite H. Qed.

(** C1: a single call to a declared tool, with every required parameter
    among its arguments, a user text without any of the nine keywords and a
    confidence at least the threshold, is accepted: the router returns the
    local result with "source" set to "on-device" and nothing else changed,
    and the cloud adapter is not called. *)
Theorem accept_on_device `{R : Runtime} messages tools thr w local w1 call n args conf :
  generate_cactus messages tools w = (Ok local, w1) →
  local !! "function_calls" = Some (PList [PDict call]) →
  call !! "name" = Some (PStr n) →
  n ∈ name <$> tools →
  default (PDict ∅) (call !! "arguments") = PDict args →
  (∀ t, t ∈ tools → name t = n →
     ∀ p, p ∈ default [] (required (parameters t)) → p ∈ dom args) →
  (∀ k, k ∈ complex_keywords →
     contains k (lower (join " " (user_contents messages))) = false) →
  local !! "confidence" = Some conf →
  py_ge conf thr = Ok true →
  generate_hybrid messages tools thr w
  = (Ok (<["source" := PStr "on-device"]> local), w1).
Proof.
  intros Hl Hc Hn Hd Ha Hreq Hk Hconf Hge.
  apply (hybrid_accept messages tools thr w w1 local Hl (PDict call) Hc
           (PStr n) (name_of_call _ _ Hn) n args eq_refl).
  - by apply declared_name.
  - by apply arguments_of_call.
  - by apply required_covered.
  - by apply is_complex_false.
  - rewrite (conf_of_lookup _ _ Hconf). by apply py_ge_not_lt.
Qed.

Lemma accept_on_device_witness :
  generate_hybrid (R := mock_engine [PDict (weather_call in_SF)] (PFloat 0.95))
    simple_question [get_weather] default_confidence_threshold world0
  = (Ok (<["source" := PStr "on-device"]>
           (engine_record [PDict (weather_call in_SF)] (PFloat 0.95))),
     released world0).
Proof.
  apply (accept_on_device
           (R := mock_engine [PDict (weather_call in_SF)] (PFloat 0.95))
           simple_question [get_weather] default_confidence_threshold world0
           (engine_record [PDict (weather_call in_SF)] (PFloat 0.95))
           (released world0) (weather_call in_SF) "get_weather" in_SF
           (PFloat 0.95)).
  - vm_compute. reflexivity.
  - reflexivity.
  - reflexivity.
  - by left.
  - reflexivity.
  - intros t Ht%list_elem_of_singleton _ p Hp. subst t. simpl in Hp.
    apply list_elem_of_singleton in Hp as ->. by apply elem_of_dom.
  - intros k Hk. unfold complex_keywords in Hk.
    repeat (apply elem_of_cons in Hk as [-> | Hk]; [reflexivity |]).
    by apply elem_of_nil in Hk.
  - reflexivity.
  - reflexivity.
Defined.

(** C2: when the local result has no function call, the router falls back
    to the cloud adapter with reason no_calls, whatever the tools, the
    messages, the confidence and the threshold are; once the cloud adapter
    has answered, the result's source ends in "fallback: no_calls)". *)
Theorem no_calls_falls_back `{R : Runtime} messages tools thr w local w1 :
  generate_cactus messages tools w = (Ok local, w1) →
  local !! "function_calls" = Some (PList []) →
  generate_hybrid messages tools thr w
  = fallback messages tools "cloud (fallback: no_calls)"
      (conf_of local) (time_of local) w1
  ∧ ∀ cloud w2 ct total,
      generate_cloud messages tools w1 = (Ok cloud, w2) →
      cloud !! "total_time_ms" = Some ct →
      py_add ct (time_of local) = Ok total →
      ∃ r label,
        generate_hybrid messages tools thr w = (Ok r, w2) ∧
        r !! "source" = Some (PStr label) ∧
        endswith label "fallback: no_calls)" = true.
Proof.
  intros Hl Hc.
  assert (generate_hybrid messages tools thr w
          = fallback messages tools "cloud (fallback: no_calls)"
              (conf_of local) (time_of local) w1) as E.
  { apply (hybrid_no_calls _ _ _ _ _ _ Hl). unfold calls_of. by rewrite Hc. }
  split; [exact E |]. intros cloud w2 ct total Hcloud Hct Hadd.
  eexists _, _. rewrite E.
  split; [by apply (fallback_returns _ _ _ _ _ _ _ _ _ _ Hcloud Hct Hadd) |].
  split; [apply merged_source | reflexivity].
Qed.

Lemma no_calls_falls_back_witness :
  ∃ r label,
    generate_hybrid (R := mock_engine [] (PFloat 0.95))
      complex_question [] default_confidence_threshold world0
    = (Ok r, World ∅ 1 2) ∧
    r !! "source" = Some (PStr label) ∧
    endswith label "fallback: no_calls)" = true.
Proof.
  apply (proj2 (no_calls_falls_back (R := mock_engine [] (PFloat 0.95))
                  complex_question [] default_confidence_threshold world0
                  (engine_record [] (PFloat 0.95)) (released world0)
                  ltac:(vm_compute; reflexivity) ltac:(reflexivity))
           cloud_record (World ∅ 1 2) (PFloat 250) (PFloat 262.5)).
  - vm_compute. reflexivity.
  - reflexivity.
  - reflexivity.
Defined.

(** C3: a single call whose name is not a declared tool name falls back
    with reason invalid_tool; nothing is asked of its arguments, which the
    router has not looked at yet. *)
Theorem invalid_tool_precedes_missing_args `{R : Runtime} messages tools thr w local w1 call n :
  generate_cactus messages tools w = (Ok local, w1) →
  local !! "function_calls" = Some (PList [PDict call]) →
  call !! "name" = Some (PStr n) →
  n ∉ name <$> tools →
  generate_hybrid messages tools thr w
  = fallback messages tools "cloud (fallback: invalid_tool)"
      (conf_of local) (time_of local) w1
  ∧ ∀ cloud w2 ct total,
      generate_cloud messages tools w1 = (Ok cloud, w2) →
      cloud !! "total_time_ms" = Some ct →
      py_add ct (time_of local) = Ok total →
      ∃ r,
        generate_hybrid messages tools thr w = (Ok r, w2) ∧
        r !! "source" = Some (PStr "cloud (fallback: invalid_tool)").
Proof.
  intros Hl Hc Hn Hd.
  assert (generate_hybrid messages tools thr w
          = fallback messages tools "cloud (fallback: invalid_tool)"
              (conf_of local) (time_of local) w1) as E.
  { apply (hybrid_invalid_tool _ _ _ _ _ _ Hl (PDict call) Hc
             (PStr n) (name_of_call _ _ Hn)).
    simpl. rewrite bool_decide_eq_true_2; [done |]. by rewrite <- declared_name. }
  split; [exact E |]. intros cloud w2 ct total Hcloud Hct Hadd.
  eexists. rewrite E.
  split; [by apply (fallback_returns _ _ _ _ _ _ _ _ _ _ Hcloud Hct Hadd) |].
  apply merged_source.
Qed.

Lemma invalid_tool_precedes_missing_args_witness :
  ∃ r,
    generate_hybrid (R := mock_engine [PDict time_call] (PFloat 0.95))
      simple_question [get_weather] default_confidence_threshold world0
    = (Ok r, World ∅ 1 2) ∧
    r !! "source" = Some (PStr "cloud (fallback: invalid_tool)").
Proof.
  apply (proj2 (invalid_tool_precedes_missing_args
                  (R := mock_engine [PDict time_call] (PFloat 0.95))
                  simple_question [get_weather] default_confidence_threshold
                  world0 (engine_record [PDict time_call] (PFloat 0.95))
                  (released world0) time_call "get_time"
                  ltac:(vm_compute; reflexivity) ltac:(reflexivity)
                  ltac:(reflexivity)
                  ltac:(by intros [= ]%list_elem_of_singleton))
           cloud_record (World ∅ 1 2) (PFloat 250) (PFloat 262.5)).
  - vm_compute. reflexivity.
  - reflexivity.
  - reflexivity.
Defined.

(** C4, as the code has it: a user text with a complexity keyword makes a
    single call to a declared tool fall back with reason complex_query
    whatever the local confidence is, provided the call's arguments cover
    the required parameters; the keyword scan comes after the check of the
    arguments and before the comparison with the threshold. *)
Theorem complex_query_after_arguments `{R : Runtime}
    messages tools thr w local w1 call n args k :
  generate_cactus messages tools w = (Ok local, w1) →
  local !! "function_calls" = Some (PList [PDict call]) →
  call !! "name" = Some (PStr n) →
  n ∈ name <$> tools →
  default (PDict ∅) (call !! "arguments") = PDict args →
  (∀ t, t ∈ tools → name t = n →
     ∀ p, p ∈ default [] (required (parameters t)) → p ∈ dom args) →
  k ∈ complex_keywords →
  contains k (lower (join " " (user_contents messages))) = true →
  generate_hybrid messages tools thr w
  = fallback messages tools "cloud (fallback: complex_query)"
      (conf_of local) (time_of local) w1
  ∧ ∀ cloud w2 ct total,
      generate_cloud messages tools w1 = (Ok cloud, w2) →
      cloud !! "total_time_ms" = Some ct →
      py_add ct (time_of local) = Ok total →
      ∃ r,
        generate_hybrid messages tools thr w = (Ok r, w2) ∧
        r !! "source" = Some (PStr "cloud (fallback: complex_query)").
Proof.
  intros Hl Hc Hn Hd Ha Hreq Hin Hk.
  assert (generate_hybrid messages tools thr w
          = fallback messages tools "cloud (fallback: complex_query)"
              (conf_of local) (time_of local) w1) as E.
  { apply (hybrid_complex_query messages tools thr w w1 local Hl (PDict call) Hc
             (PStr n) (name_of_call _ _ Hn) n args eq_refl).
    - by apply declared_name.
    - by apply arguments_of_call.
    - by apply required_covered.
    - by apply (is_complex_true _ k). }
  split; [exact E |]. intros cloud w2 ct total Hcloud Hct Hadd.
  eexists. rewrite E.
  split; [by apply (fallback_returns _ _ _ _ _ _ _ _ _ _ Hcloud Hct Hadd) |].
  apply merged_source.
Qed.

Lemma complex_query_after_arguments_witness :
  ∃ r,
    generate_hybrid (R := mock_engine [PDict (weather_call in_SF)] (PFloat 1))
      complex_question [get_weather] default_confidence_threshold world0
    = (Ok r, World ∅ 1 2) ∧
    r !! "source" = Some (PStr "cloud (fallback: complex_query)").
Proof.
  apply (proj2 (complex_query_after_arguments
                  (R := mock_engine [PDict (weather_call in_SF)] (PFloat 1))
                  complex_question [get_weather] default_confidence_threshold
                  world0 (engine_record [PDict (weather_call in_SF)] (PFloat 1))
                  (released world0) (weather_call in_SF) "get_weather" in_SF
                  "compare"
                  ltac:(vm_compute; reflexivity) ltac:(reflexivity)
                  ltac:(reflexivity) ltac:(by left) ltac:(reflexivity)
                  ltac:(intros t Ht%list_elem_of_singleton _ p Hp; subst t;
                        simpl in Hp; apply list_elem_of_singleton in Hp as ->;
                        by apply elem_of_dom)
                  ltac:(unfold complex_keywords; do 3 right; left)
                  ltac:(reflexivity))
           cloud_record (World ∅ 1 2) (PFloat 250) (PFloat 262.5)).
  - vm_compute. reflexivity.
  - reflexivity.
  - reflexivity.
Defined.

(** C4 as stated fails: with the text "Compare the weather and calculate
    the difference", a single call to the declared tool get_weather and a
    confidence of 1.0, but without the required argument, the reason is
    missing_args and not complex_query. *)
Lemma complex_query_depends_on_arguments :
  contains "compare" (lower (join " " (user_contents complex_question))) = true
  ∧ generate_cactus (R := mock_engine [PDict (weather_call ∅)] (PFloat 1))
      complex_question [get_weather] world0
    = (Ok (engine_record [PDict (weather_call ∅)] (PFloat 1)), released world0)
  ∧ weather_call ∅ !! "name" = Some (PStr "get_weather")
  ∧ "get_weather" ∈ name <$> [get_weather]
  ∧ generate_hybrid (R := mock_engine [PDict (weather_call ∅)] (PFloat 1))
      complex_question [get_weather] default_confidence_threshold world0
    = (Ok (merged "cloud (fallback: missing_args)" (PFloat 1) (PFloat 262.5)
             cloud_record), World ∅ 1 2)
  ∧ merged "cloud (fallback: missing_args)" (PFloat 1) (PFloat 262.5)
      cloud_record !! "source"
    ≠ Some (PStr "cloud (fallback: complex_query)").
Proof.
  split; [reflexivity |]. split; [vm_compute; reflexivity |].
  split; [reflexivity |]. split; [by left |].
  split; [vm_compute; reflexivity |].
  rewrite merged_source. by intros [=].
Qed.

(** C5: for a single valid call with complete arguments and no complexity
    keyword, the router falls back with reason low_conf exactly when the
    local confidence is strictly below the threshold: below it, the result
    of the fallback carries the local confidence as local_confidence; not
    below it, and in particular equal to it, the local result is accepted. *)
Theorem low_conf_iff_below_threshold `{R : Runtime}
    messages tools thr w local w1 call n args conf :
  generate_cactus messages tools w = (Ok local, w1) →
  local !! "function_calls" = Some (PList [PDict call]) →
  call !! "name" = Some (PStr n) →
  n ∈ name <$> tools →
  default (PDict ∅) (call !! "arguments") = PDict args →
  (∀ t, t ∈ tools → name t = n →
     ∀ p, p ∈ default [] (required (parameters t)) → p ∈ dom args) →
  (∀ k, k ∈ complex_keywords →
     contains k (lower (join " " (user_contents messages))) = false) →
  local !! "confidence" = Some conf →
  (py_lt conf thr = Ok true →
     generate_hybrid messages tools thr w
     = fallback messages tools "cloud (fallback: low_conf)"
         conf (time_of local) w1
     ∧ ∀ cloud w2 ct total,
         generate_cloud messages tools w1 = (Ok cloud, w2) →
         cloud !! "total_time_ms" = Some ct →
         py_add ct (time_of local) = Ok total →
         ∃ r,
           generate_hybrid messages tools thr w = (Ok r, w2) ∧
           r !! "source" = Some (PStr "cloud (fallback: low_conf)") ∧
           r !! "local_confidence" = Some conf)
  ∧ (py_lt conf thr = Ok false →
       generate_hybrid messages tools thr w
       = (Ok (<["source" := PStr "on-device"]> local), w1))
  ∧ (conf = PFloat thr →
       generate_hybrid messages tools thr w
       = (Ok (<["source" := PStr "on-device"]> local), w1))
  ∧ (∀ r w2,
       generate_hybrid messages tools thr w = (Ok r, w2) →
       (r !! "source" = Some (PStr "cloud (fallback: low_conf)")
        ↔ py_lt conf thr = Ok true)).
Proof.
  intros Hl Hc Hn Hd%declared_name Ha%arguments_of_call Hreq%required_covered
    Hk%is_complex_false Hconf.
  pose proof (conf_of_lookup _ _ Hconf) as Ec.
  pose proof (hybrid_low_conf messages tools thr w w1 local Hl (PDict call) Hc
                (PStr n) (name_of_call _ _ Hn) n args eq_refl Hd Ha Hreq Hk)
    as Hlow.
  pose proof (hybrid_accept messages tools thr w w1 local Hl (PDict call) Hc
                (PStr n) (name_of_call _ _ Hn) n args eq_refl Hd Ha Hreq Hk)
    as Hacc.
  pose proof (hybrid_conf_raises messages tools thr w w1 local Hl (PDict call)
                Hc (PStr n) (name_of_call _ _ Hn) n args eq_refl Hd Ha Hreq Hk)
    as Hraise.
  rewrite Ec in Hlow, Hacc, Hraise.
  split; [| split; [exact Hacc | split]].
  - intros Hlt. specialize (Hlow Hlt). split; [exact Hlow |].
    intros cloud w2 ct total Hcloud Hct Hadd. eexists. rewrite Hlow.
    split; [by apply (fallback_returns _ _ _ _ _ _ _ _ _ _ Hcloud Hct Hadd) |].
    split; [apply merged_source | apply merged_local_confidence].
  - intros ->. apply Hacc, py_lt_same.
  - intros r w2 Hr. destruct (py_lt conf thr) as [[] | e] eqn:E.
    + rewrite (Hlow eq_refl) in Hr.
      destruct (fallback_inv _ _ _ _ _ _ _ _ Hr) as (? & ? & _ & _ & ->).
      by rewrite merged_source.
    + rewrite (Hacc eq_refl) in Hr. injection Hr as <- _.
      rewrite lookup_insert_eq. split; intros [=].
    + by rewrite (Hraise e eq_refl) in Hr.
Qed.

Lemma low_conf_iff_below_threshold_witness :
  ∃ r,
    generate_hybrid (R := mock_engine [PDict (weather_call in_SF)] (PFloat 0.5))
      simple_question [get_weather] default_confidence_threshold world0
    = (Ok r, World ∅ 1 2) ∧
    r !! "source" = Some (PStr "cloud (fallback: low_conf)") ∧
    r !! "local_confidence" = Some (PFloat 0.5).
Proof.
  apply (proj2 (proj1 (low_conf_iff_below_threshold
                  (R := mock_engine [PDict (weather_call in_SF)] (PFloat 0.5))
                  simple_question [get_weather] default_confidence_threshold
                  world0
                  (engine_record [PDict (weather_call in_SF)] (PFloat 0.5))
                  (released world0) (weather_call in_SF) "get_weather" in_SF
                  (PFloat 0.5)
                  ltac:(vm_compute; reflexivity) ltac:(reflexivity)
                  ltac:(reflexivity) ltac:(by left) ltac:(reflexivity)
                  ltac:(intros t Ht%list_elem_of_singleton _ p Hp; subst t;
                        simpl in Hp; apply list_elem_of_singleton in Hp as ->;
                        by apply elem_of_dom)
                  ltac:(intros k Hk; unfold complex_keywords in Hk;
                        repeat (apply elem_of_cons in Hk as [-> | Hk];
                                [reflexivity |]);
                        by apply elem_of_nil in Hk)
                  ltac:(reflexivity)) ltac:(reflexivity))
           cloud_record (World ∅ 1 2) (PFloat 250) (PFloat 262.5)).
  - vm_compute. reflexivity.
  - reflexivity.
  - reflexivity.
Defined.

(** C6: whenever the router returns the result of a fallback, whichever of
    the six reasons it was, its total_time_ms is the sum of the time the
    cloud adapter reported and the time the local result reported, and its
    local_confidence is the confidence of the local result. *)
Theorem fallback_adds_times `{R : Runtime} messages tools thr w r w' :
  generate_hybrid messages tools thr w = (Ok r, w') →
  r !! "source" ≠ Some (PStr "on-device") →
  ∃ local w1 cloud local_time local_conf cloud_time total label,
    generate_cactus messages tools w = (Ok local, w1) ∧
    generate_cloud messages tools w1 = (Ok cloud, w') ∧
    local !! "total_time_ms" = Some local_time ∧
    local !! "confidence" = Some local_conf ∧
    cloud !! "total_time_ms" = Some (PFloat cloud_time) ∧
    py_add (PFloat cloud_time) local_time = Ok total ∧
    (∀ t, local_time = PFloat t → total = PFloat (cloud_time + t)%float) ∧
    r !! "total_time_ms" = Some total ∧
    r !! "local_confidence" = Some local_conf ∧
    label ∈ fallback_labels ∧
    r !! "source" = Some (PStr label).
Proof.
  intros H Hsrc.
  destruct (generate_hybrid_fallback_inv _ _ _ _ _ _ H Hsrc)
    as (local & w1 & label & cloud & calls & ct & total
        & Hl & Hc & Hin & -> & Hadd & ->).
  destruct (generate_cactus_shape _ _ _ _ _ Hl) as (fc & lt & lc & ->).
  unfold time_of in Hadd.
  rewrite lookup_insert_ne, lookup_insert_eq in Hadd by done.
  change (default (PInt 0) (Some lt)) with lt in Hadd.
  assert (conf_of (<["function_calls" := fc]>
                   (<["total_time_ms" := lt]> (<["confidence" := lc]> ∅))) = lc)
    as -> by reflexivity.
  eexists _, w1, _, lt, lc, ct, total, label.
  split; [exact Hl |]. split; [exact Hc |].
  split; [reflexivity |]. split; [reflexivity |]. split; [reflexivity |].
  split; [exact Hadd |].
  split; [intros t ->; rewrite py_add_floats in Hadd; by injection Hadd |].
  split; [apply merged_total_time |].
  split; [apply merged_local_confidence |]. split; [exact Hin |].
  apply merged_source.
Qed.

Lemma fallback_adds_times_witness :
  ∃ local w1 cloud local_time local_conf cloud_time total label,
    generate_cactus (R := mock_engine [PDict (weather_call ∅)] (PFloat 1))
      complex_question [get_weather] world0 = (Ok local, w1) ∧
    generate_cloud (R := mock_engine [PDict (weather_call ∅)] (PFloat 1))
      complex_question [get_weather] w1 = (Ok cloud, World ∅ 1 2) ∧
    local !! "total_time_ms" = Some local_time ∧
    local !! "confidence" = Some local_conf ∧
    cloud !! "total_time_ms" = Some (PFloat cloud_time) ∧
    py_add (PFloat cloud_time) local_time = Ok total ∧
    (∀ t, local_time = PFloat t → total = PFloat (cloud_time + t)%float) ∧
    merged "cloud (fallback: missing_args)" (PFloat 1) (PFloat 262.5)
      cloud_record !! "total_time_ms" = Some total ∧
    merged "cloud (fallback: missing_args)" (PFloat 1) (PFloat 262.5)
      cloud_record !! "local_confidence" = Some local_conf ∧
    label ∈ fallback_labels ∧
    merged "cloud (fallback: missing_args)" (PFloat 1) (PFloat 262.5)
      cloud_record !! "source" = Some (PStr label).
Proof.
  apply (fallback_adds_times
           (R := mock_engine [PDict (weather_call ∅)] (PFloat 1))
           complex_question [get_weather] default_confidence_threshold world0).
  - vm_compute. reflexivity.
  - rewrite merged_source. by intros [=].
Defined.

(** C7, at the failing input: an engine output that parses, but not to an
    object, makes the local adapter raise AttributeError, and the router
    with it: the cloud adapter is not called. *)
Theorem non_object_output_raises `{R : Runtime} messages tools thr w text v :
  engine_output messages tools = Ok text →
  json_loads text = Ok v →
  (∀ d, v ≠ PDict d) →
  generate_cactus messages tools w = (Raise AttributeError, released w)
  ∧ generate_hybrid messages tools thr w = (Raise AttributeError, released w).
Proof.
  intros He Hj Hv.
  pose proof (generate_cactus_not_object _ _ w _ _ He Hj Hv) as H.
  split; [exact H |].
  unfold generate_hybrid. by rewrite (bind_raise _ _ _ _ _ H).
Qed.

Lemma non_object_output_raises_witness :
  generate_cactus (R := mock (Ok "[]") (Ok (PList [])) (Ok cloud_answer))
    simple_question [get_weather] world0
  = (Raise AttributeError, released world0)
  ∧ generate_hybrid (R := mock (Ok "[]") (Ok (PList [])) (Ok cloud_answer))
      simple_question [get_weather] default_confidence_threshold world0
    = (Raise AttributeError, released world0).
Proof.
  apply (non_object_output_raises
           (R := mock (Ok "[]") (Ok (PList [])) (Ok cloud_answer))
           simple_question [get_weather] default_confidence_threshold world0
           "[]" (PList [])).
  - reflexivity.
  - reflexivity.
  - intros d. discriminate.
Defined.

(** C8, at the failing input: when the engine call raises, the exception
    leaves [generate_cactus] (and the router) with the model handle still
    live: [cactus_destroy] is not reached. *)
Theorem engine_exception_leaks_model `{R : Runtime} messages tools thr w e :
  engine_output messages tools = Raise e →
  generate_cactus messages tools w = (Raise e, leaked w)
  ∧ generate_hybrid messages tools thr w = (Raise e, leaked w)
  ∧ next_model w ∈ live_models (leaked w).
Proof.
  intros He.
  pose proof (generate_cactus_engine_raises _ _ w _ He) as H.
  split; [exact H |]. split; [| apply leaked_live].
  unfold generate_hybrid. by rewrite (bind_raise _ _ _ _ _ H).
Qed.

Lemma engine_exception_leaks_model_witness :
  generate_cactus
    (R := mock (Raise (EngineError "interrupted")) (Ok PNone) (Ok cloud_answer))
    simple_question [get_weather] world0
  = (Raise (EngineError "interrupted"), leaked world0)
  ∧ generate_hybrid
      (R := mock (Raise (EngineError "interrupted")) (Ok PNone) (Ok cloud_answer))
      simple_question [get_weather] default_confidence_threshold world0
    = (Raise (EngineError "interrupted"), leaked world0)
  ∧ next_model world0 ∈ live_models (leaked world0).
Proof.
  apply (engine_exception_leaks_model
           (R := mock (Raise (EngineError "interrupted")) (Ok PNone)
                   (Ok cloud_answer))
           simple_question [get_weather] default_confidence_threshold world0).
  reflexivity.
Defined.

(** C9: the record of the cloud adapter has the keys function_calls and
    total_time_ms only, and the result of a fallback has these two, source
    and local_confidence: it has no confidence field, and the confidence of
    the local result is under local_confidence. *)
Theorem fallback_has_no_confidence `{R : Runtime} messages tools :
  (∀ w cloud w',
     generate_cloud messages tools w = (Ok cloud, w') →
     dom cloud = ({["function_calls"; "total_time_ms"]} : gset string))
  ∧ (∀ thr w r w',
       generate_hybrid messages tools thr w = (Ok r, w') →
       r !! "source" ≠ Some (PStr "on-device") →
       r !! "confidence" = None ∧
       is_Some (r !! "local_confidence") ∧
       dom r = ({["function_calls"; "total_time_ms"; "source";
                  "local_confidence"]} : gset string)).
Proof.
  split.
  - intros w cloud w' H.
    destruct (generate_cloud_shape _ _ _ _ _ H) as (calls & t & ->).
    rewrite !dom_insert_L, dom_empty_L. set_solver.
  - intros thr w r w' H Hsrc.
    destruct (generate_hybrid_fallback_inv _ _ _ _ _ _ H Hsrc)
      as (local & w1 & label & cloud & calls & ct & total
          & _ & _ & _ & -> & _ & ->).
    split; [| split].
    + unfold merged. by do 5 (rewrite lookup_insert_ne by done).
    + rewrite merged_local_confidence. eauto.
    + apply merged_dom.
Qed.

Lemma fallback_has_no_confidence_witness :
  dom cloud_record = ({["function_calls"; "total_time_ms"]} : gset string)
  ∧ merged "cloud (fallback: low_conf)" (PFloat 0.5) (PFloat 262.5)
      cloud_record !! "confidence" = None
  ∧ is_Some (merged "cloud (fallback: low_conf)" (PFloat 0.5) (PFloat 262.5)
               cloud_record !! "local_confidence")
  ∧ dom (merged "cloud (fallback: low_conf)" (PFloat 0.5) (PFloat 262.5)
           cloud_record)
    = ({["function_calls"; "total_time_ms"; "source"; "local_confidence"]}
        : gset string).
Proof.
  pose proof (fallback_has_no_confidence
                (R := mock_engine [PDict (weather_call in_SF)] (PFloat 0.5))
                simple_question [get_weather]) as [Hcloud Hhybrid].
  split.
  - apply (Hcloud world0 cloud_record (World ∅ 0 2)). vm_compute. reflexivity.
  - apply (Hhybrid default_confidence_threshold world0 _ (World ∅ 1 2)).
    + vm_compute. reflexivity.
    + rewrite merged_source. by intros [=].
Defined.

(** C10: the single call is indexed by "name": without that key the router
    raises KeyError, and the cloud adapter is not called.  Its arguments are
    read with a default: without an "arguments" key the call has no argument,
    which is a missing_args fallback as soon as the tool has a required
    parameter, and no obstacle when it has none. *)
Theorem name_indexed_arguments_defaulted `{R : Runtime}
    messages tools thr w local w1 call :
  generate_cactus messages tools w = (Ok local, w1) →
  local !! "function_calls" = Some (PList [PDict call]) →
  (call !! "name" = None →
     generate_hybrid messages tools thr w = (Raise KeyError, w1))
  ∧ (∀ n,
       call !! "name" = Some (PStr n) →
       n ∈ name <$> tools →
       call !! "arguments" = None →
       (∀ t, t ∈ tools → name t = n →
          default [] (required (parameters t)) ≠ []) →
       generate_hybrid messages tools thr w
       = fallback messages tools "cloud (fallback: missing_args)"
           (conf_of local) (time_of local) w1
       ∧ ∀ cloud w2 ct total,
           generate_cloud messages tools w1 = (Ok cloud, w2) →
           cloud !! "total_time_ms" = Some ct →
           py_add ct (time_of local) = Ok total →
           ∃ r,
             generate_hybrid messages tools thr w = (Ok r, w2) ∧
             r !! "source" = Some (PStr "cloud (fallback: missing_args)"))
  ∧ (∀ n,
       call !! "name" = Some (PStr n) →
       n ∈ name <$> tools →
       call !! "arguments" = None →
       (∀ t, t ∈ tools → name t = n →
          default [] (required (parameters t)) = []) →
       is_complex messages = false →
       py_lt (conf_of local) thr = Ok false →
       generate_hybrid messages tools thr w
       = (Ok (<["source" := PStr "on-device"]> local), w1)).
Proof.
  intros Hl Hc. split; [| split].
  - intros Hn. apply (hybrid_name_raises _ _ _ _ _ _ Hl (PDict call) Hc).
    simpl. by rewrite Hn.
  - intros n Hn Hd%declared_name Ha Hreq.
    assert (generate_hybrid messages tools thr w
            = fallback messages tools "cloud (fallback: missing_args)"
                (conf_of local) (time_of local) w1) as E.
    { apply (hybrid_missing_args messages tools thr w w1 local Hl (PDict call)
               Hc (PStr n) (name_of_call _ _ Hn) n ∅ eq_refl Hd).
      - simpl. by rewrite Ha.
      - rewrite dom_empty_L. by apply required_not_covered. }
    split; [exact E |]. intros cloud w2 ct total Hcloud Hct Hadd.
    eexists. rewrite E.
    split; [by apply (fallback_returns _ _ _ _ _ _ _ _ _ _ Hcloud Hct Hadd) |].
    apply merged_source.
  - intros n Hn Hd%declared_name Ha Hreq Hsimple Hlt.
    apply (hybrid_accept messages tools thr w w1 local Hl (PDict call)
             Hc (PStr n) (name_of_call _ _ Hn) n ∅ eq_refl Hd); try done.
    + simpl. by rewrite Ha.
    + apply required_covered. intros t Ht Hnm p Hp.
      rewrite (Hreq t Ht Hnm) in Hp. by apply elem_of_nil in Hp.
Qed.

Lemma name_indexed_arguments_defaulted_witness :
  generate_hybrid (R := mock_engine [PDict nameless_call] (PFloat 0.95))
    simple_question [get_weather] default_confidence_threshold world0
  = (Raise KeyError, released world0)
  ∧ (∃ r,
      generate_hybrid (R := mock_engine [PDict bare_call] (PFloat 0.95))
        simple_question [get_weather] default_confidence_threshold world0
      = (Ok r, World ∅ 1 2) ∧
      r !! "source" = Some (PStr "cloud (fallback: missing_args)"))
  ∧ generate_hybrid (R := mock_engine [PDict time_call] (PFloat 0.95))
      simple_question [get_weather; get_time] default_confidence_threshold
      world0
    = (Ok (<["source" := PStr "on-device"]>
             (engine_record [PDict time_call] (PFloat 0.95))),
       released world0).
Proof.
  split; [| split].
  - apply (proj1 (name_indexed_arguments_defaulted
                    (R := mock_engine [PDict nameless_call] (PFloat 0.95))
                    simple_question [get_weather] default_confidence_threshold
                    world0 (engine_record [PDict nameless_call] (PFloat 0.95))
                    (released world0) nameless_call
                    ltac:(vm_compute; reflexivity) ltac:(reflexivity))).
    reflexivity.
  - apply (proj2 (proj1 (proj2 (name_indexed_arguments_defaulted
                    (R := mock_engine [PDict bare_call] (PFloat 0.95))
                    simple_question [get_weather] default_confidence_threshold
                    world0 (engine_record [PDict bare_call] (PFloat 0.95))
                    (released world0) bare_call
                    ltac:(vm_compute; reflexivity) ltac:(reflexivity)))
                  "get_weather" ltac:(reflexivity) ltac:(by left)
                  ltac:(reflexivity)
                  ltac:(by intros t ->%list_elem_of_singleton _))
             cloud_record (World ∅ 1 2) (PFloat 250) (PFloat 262.5)).
    + vm_compute. reflexivity.
    + reflexivity.
    + reflexivity.
  - apply (proj2 (proj2 (name_indexed_arguments_defaulted
                    (R := mock_engine [PDict time_call] (PFloat 0.95))
                    simple_question [get_weather; get_time]
                    default_confidence_threshold
                    world0 (engine_record [PDict time_call] (PFloat 0.95))
                    (released world0) time_call
                    ltac:(vm_compute; reflexivity) ltac:(reflexivity)))
             "get_time").
    + reflexivity.
    + right. by left.
    + reflexivity.
    + intros t Ht Hn. apply elem_of_cons in Ht as [-> | Ht]; [done |].
      by apply list_elem_of_singleton in Ht as ->.
    + reflexivity.
    + reflexivity.
Defined.

(** * Further properties *)

(** ** The local adapter *)

(** X1: an engine output that does not parse gives the record with no
    call, a time of 0 and a confidence of 0, and the model handle taken
    for the call is no longer live. *)
Theorem unparsable_output_gives_empty_record `{R : Runtime}
    (messages : list message) (tools : list tool) (w : world) (text : string) :
  engine_output messages tools = Ok text →
  json_loads text = Raise JSONDecodeError →
  ∃ w1,
    generate_cactus messages tools w = (Ok empty_result, w1) ∧
    empty_result !! "function_calls" = Some (PList []) ∧
    empty_result !! "total_time_ms" = Some (PInt 0) ∧
    empty_result !! "confidence" = Some (PInt 0) ∧
    (next_model w ∉ live_models w1) ∧
    clock_reads w1 = clock_reads w.
Proof.
  intros He Hj. exists (released w).
  split; [by apply (generate_cactus_unparsable _ _ _ text) |].
  repeat split; try reflexivity. apply released_not_live.
Qed.

Lemma unparsable_output_gives_empty_record_witness :
  ∃ w1,
    generate_cactus
      (R := mock (Ok "not json") (Raise JSONDecodeError) (Ok cloud_answer))
      simple_question [get_weather] world0 = (Ok empty_result, w1) ∧
    empty_result !! "function_calls" = Some (PList []) ∧
    empty_result !! "total_time_ms" = Some (PInt 0) ∧
    empty_result !! "confidence" = Some (PInt 0) ∧
    (next_model world0 ∉ live_models w1) ∧
    clock_reads w1 = clock_reads world0.
Proof.
  apply (unparsable_output_gives_empty_record
           (R := mock (Ok "not json") (Raise JSONDecodeError) (Ok cloud_answer))
           simple_question [get_weather] world0 "not json").
  - reflexivity.
  - reflexivity.
Defined.

(** X2: when the engine output parses to an object, the record takes the
    three fields from it, each with its default when the key is missing, and
    nothing else: any other key of the object is dropped. *)
Theorem object_output_keeps_three_fields `{R : Runtime}
    (messages : list message) (tools : list tool) (w : world) (text : string)
    (d : gmap string pyval) :
  engine_output messages tools = Ok text →
  json_loads text = Ok (PDict d) →
  ∃ local w1,
    generate_cactus messages tools w = (Ok local, w1) ∧
    local !! "function_calls" = Some (default (PList []) (d !! "function_calls")) ∧
    local !! "total_time_ms" = Some (default (PInt 0) (d !! "total_time_ms")) ∧
    local !! "confidence" = Some (default (PInt 0) (d !! "confidence")) ∧
    dom local = ({["function_calls"; "total_time_ms"; "confidence"]} : gset string).
Proof.
  intros He Hj. eexists _, _.
  split; [by apply (generate_cactus_object _ _ _ text) |].
  split; [by rewrite lookup_insert_eq |].
  split; [rewrite lookup_insert_ne by done; by rewrite lookup_insert_eq |].
  split; [do 2 (rewrite lookup_insert_ne by done); by rewrite lookup_insert_eq |].
  rewrite !dom_insert_L, dom_empty_L.
  apply set_eq. intros k. rewrite !elem_of_union, !elem_of_singleton.
  rewrite elem_of_empty. tauto.
Qed.

Lemma object_output_keeps_three_fields_witness :
  ∃ local w1,
    generate_cactus
      (R := mock (Ok "{...}") (Ok (PDict stray_object))
              (Ok cloud_answer))
      simple_question [get_weather] world0 = (Ok local, w1) ∧
    local !! "function_calls"
    = Some (default (PList []) (stray_object !! "function_calls")) ∧
    local !! "total_time_ms"
    = Some (default (PInt 0) (stray_object !! "total_time_ms")) ∧
    local !! "confidence"
    = Some (default (PInt 0) (stray_object !! "confidence")) ∧
    dom local = ({["function_calls"; "total_time_ms"; "confidence"]} : gset string).
Proof.
  apply (object_output_keeps_three_fields
           (R := mock (Ok "{...}") (Ok (PDict stray_object))
                   (Ok cloud_answer))
           simple_question [get_weather] world0 "{...}" stray_object).
  - reflexivity.
  - reflexivity.
Defined.

(** X3: an exception of the decoder other than JSONDecodeError is not
    caught: it leaves [generate_cactus], after the handle was given back. *)
Theorem other_decoder_exception_propagates `{R : Runtime}
    (messages : list message) (tools : list tool) (w : world) (text : string)
    (e : exn) :
  engine_output messages tools = Ok text →
  json_loads text = Raise e →
  e ≠ JSONDecodeError →
  generate_cactus messages tools w = (Raise e, released w)
  ∧ next_model w ∉ live_models (released w).
Proof.
  unfold engine_output, generate_cactus. intros He Hj Hne.
  split; [| apply released_not_live].
  unfold mbind at 1, M_bind at 1. simpl.
  unfold cactus_complete, mbind at 1, M_bind at 1, lift. rewrite He. simpl.
  rewrite Hj. by destruct e.
Qed.

Lemma other_decoder_exception_propagates_witness :
  generate_cactus
    (R := mock (Ok "[[[[") (Raise RecursionError) (Ok cloud_answer))
    simple_question [get_weather] world0 = (Raise RecursionError, released world0)
  ∧ next_model world0 ∉ live_models (released world0).
Proof.
  apply (other_decoder_exception_propagates
           (R := mock (Ok "[[[[") (Raise RecursionError) (Ok cloud_answer))
           simple_question [get_weather] world0 "[[[[" RecursionError).
  - reflexivity.
  - reflexivity.
  - discriminate.
Defined.

(** X4: whenever [generate_cactus] returns a record, the record has exactly
    the keys function_calls, total_time_ms and confidence, so that the
    defaults of the three [local.get] of the router are never used. *)
Theorem local_record_has_three_keys `{R : Runtime}
    (messages : list message) (tools : list tool) (w w1 : world)
    (local : gmap string pyval) :
  generate_cactus messages tools w = (Ok local, w1) →
  dom local = ({["function_calls"; "total_time_ms"; "confidence"]} : gset string)
  ∧ local !! "function_calls" = Some (calls_of local)
  ∧ local !! "confidence" = Some (conf_of local)
  ∧ local !! "total_time_ms" = Some (time_of local).
Proof.
  intros H. destruct (generate_cactus_shape _ _ _ _ _ H) as (c & t & f & ->).
  split; [| by repeat split].
  rewrite !dom_insert_L, dom_empty_L.
  apply set_eq. intros k. rewrite !elem_of_union, !elem_of_singleton.
  rewrite elem_of_empty. tauto.
Qed.

Lemma local_record_has_three_keys_witness :
  dom (engine_record [PDict (weather_call in_SF)] (PFloat 0.95))
  = ({["function_calls"; "total_time_ms"; "confidence"]} : gset string)
  ∧ engine_record [PDict (weather_call in_SF)] (PFloat 0.95) !! "function_calls"
    = Some (calls_of (engine_record [PDict (weather_call in_SF)] (PFloat 0.95)))
  ∧ engine_record [PDict (weather_call in_SF)] (PFloat 0.95) !! "confidence"
    = Some (conf_of (engine_record [PDict (weather_call in_SF)] (PFloat 0.95)))
  ∧ engine_record [PDict (weather_call in_SF)] (PFloat 0.95) !! "total_time_ms"
    = Some (time_of (engine_record [PDict (weather_call in_SF)] (PFloat 0.95))).
Proof.
  apply (local_record_has_three_keys
           (R := mock_engine [PDict (weather_call in_SF)] (PFloat 0.95))
           simple_question [get_weather] world0 (released world0)).
  vm_compute. reflexivity.
Defined.

(** ** The cloud adapter *)

Lemma generate_cloud_returns `{R : Runtime}
    (messages : list message) (tools : list tool) (w : world)
    (candidates : list candidate) :
  genai_Client gemini_api_key = Ok () →
  generate_content "gemini-2.0-flash" (user_contents messages)
    [GeminiTool (gemini_declaration <$> tools)] = Ok candidates →
  generate_cloud messages tools w
  = (Ok (<["function_calls" := PList (collect_calls candidates)]>
         (<["total_time_ms" :=
              PFloat ((clock (S (clock_reads w)) - clock (clock_reads w)) * 1000)]>
          ∅)),
     World (live_models w) (next_model w) (S (S (clock_reads w)))).
Proof.
  intros Hc Hg. unfold generate_cloud, mbind, M_bind, lift, time_time. simpl.
  by rewrite Hc, Hg.
Qed.

(** X5: what the cloud adapter reports as total_time_ms is a thousand times
    the difference of the two readings of the clock it takes around the
    call of the model; it takes these two readings and no other, and it
    leaves the model handles alone. *)
Theorem cloud_time_is_clock_difference `{R : Runtime}
    (messages : list message) (tools : list tool) (w w' : world)
    (cloud : gmap string pyval) :
  generate_cloud messages tools w = (Ok cloud, w') →
  cloud !! "total_time_ms"
  = Some (PFloat ((clock (S (clock_reads w)) - clock (clock_reads w)) * 1000))
  ∧ clock_reads w' = S (S (clock_reads w))
  ∧ live_models w' = live_models w
  ∧ next_model w' = next_model w.
Proof.
  unfold generate_cloud, mbind, M_bind, lift, time_time. simpl.
  destruct (genai_Client gemini_api_key); [| done].
  destruct (generate_content _ _ _); [| done].
  intros [= <- <-]. by repeat split.
Qed.

Lemma cloud_time_is_clock_difference_witness :
  cloud_record !! "total_time_ms"
  = Some (PFloat ((clock (Runtime := mock_engine [] PNone) (S (clock_reads world0))
                   - clock (Runtime := mock_engine [] PNone) (clock_reads world0))
                  * 1000))
  ∧ clock_reads (World ∅ 0 2) = S (S (clock_reads world0))
  ∧ live_models (World ∅ 0 2) = live_models world0
  ∧ next_model (World ∅ 0 2) = next_model world0.
Proof.
  apply (cloud_time_is_clock_difference (R := mock_engine [] PNone)
           simple_question [get_weather]).
  vm_compute. reflexivity.
Defined.

(** X6: the cloud adapter catches nothing.  When the construction of the
    client raises, the exception leaves it before the clock is read; when
    the call of the model raises, it leaves after the first reading, and no
    record is built. *)
Theorem cloud_exceptions_propagate `{R : Runtime}
    (messages : list message) (tools : list tool) (w : world) (e : exn) :
  (genai_Client gemini_api_key = Raise e →
     generate_cloud messages tools w = (Raise e, w))
  ∧ (genai_Client gemini_api_key = Ok () →
     generate_content "gemini-2.0-flash" (user_contents messages)
       [GeminiTool (gemini_declaration <$> tools)] = Raise e →
     generate_cloud messages tools w
     = (Raise e, World (live_models w) (next_model w) (S (clock_reads w)))).
Proof.
  split.
  - intros Hc. unfold generate_cloud, mbind, M_bind, lift. by rewrite Hc.
  - intros Hc Hg. unfold generate_cloud, mbind, M_bind, lift, time_time. simpl.
    by rewrite Hc, Hg.
Qed.

Lemma cloud_exceptions_propagate_witness :
  generate_cloud
    (R := mock (Ok "{}") (Ok (PDict ∅)) (Raise (CloudError "unavailable")))
    simple_question [get_weather] world0
  = (Raise (CloudError "unavailable"), World ∅ 0 1).
Proof.
  apply (proj2 (cloud_exceptions_propagate
                  (R := mock (Ok "{}") (Ok (PDict ∅))
                          (Raise (CloudError "unavailable")))
                  simple_question [get_weather] world0
                  (CloudError "unavailable"))).
  - reflexivity.
  - reflexivity.
Defined.

(** X7: the calls the cloud adapter returns are exactly the function calls
    carried by the parts of the candidates, each as a dictionary with the
    keys name and arguments: none is left out, none is made up, and a part
    without a function call contributes nothing. *)
Theorem collect_calls_complete (candidates : list candidate) (v : pyval) :
  v ∈ collect_calls candidates
  ↔ ∃ parts c, parts ∈ candidates ∧ Some c ∈ parts ∧
      v = PDict (<["name" := PStr (fc_name c)]>
                 (<["arguments" := PDict (fc_args c)]> ∅)).
Proof.
  unfold collect_calls. rewrite list_elem_of_fmap. split.
  - intros (c & -> & Hc). apply list_elem_of_omap in Hc as (p & Hp & E).
    simpl in E. subst p. apply list_elem_of_In, in_concat in Hp as (parts & Hin & Hp).
    exists parts, c. by rewrite !list_elem_of_In.
  - intros (parts & c & Hin & Hp & ->). exists c. split; [done |].
    apply list_elem_of_omap. exists (Some c). split; [| done].
    apply list_elem_of_In, in_concat. exists parts. by rewrite <- !list_elem_of_In.
Qed.

(** X8: the calls come out in the order of the candidates and of their
    parts: collecting over two lists of candidates one after the other is
    collecting over each and appending, and a candidate adds one call for
    each of its parts that carries one. *)
Theorem collect_calls_in_order (cs1 cs2 : list candidate) :
  collect_calls (cs1 ++ cs2) = (collect_calls cs1 ++ collect_calls cs2)%list
  ∧ length (collect_calls cs1)
    = length (filter (λ p : option function_call, is_Some p) (concat cs1)).
Proof.
  unfold collect_calls. split.
  - by rewrite concat_app, omap_app, fmap_app.
  - rewrite length_fmap. induction (concat cs1) as [|[c|] l IH].
    + done.
    + rewrite filter_cons_True by eauto. simpl. by rewrite <- IH.
    + rewrite filter_cons_False by (by intros [? [=]]). simpl. exact IH.
Qed.

(** ** The complexity heuristic *)

Lemma append_assoc (a b c : string) : (a +:+ b) +:+ c = a +:+ b +:+ c.
Proof.
  induction a as [|x a IH]; [done |]. by rewrite !append_cons, IH.
Qed.

Lemma append_empty (a : string) : a +:+ EmptyString = a.
Proof. induction a as [|x a IH]; [done |]. by rewrite append_cons, IH. Qed.

Lemma length_append (a b : string) :
  String.length (a +:+ b) = (String.length a + String.length b)%nat.
Proof.
  induction a as [|x a IH]; [done |]. rewrite append_cons. simpl. by rewrite IH.
Qed.

Lemma lower_append (a b : string) : lower (a +:+ b) = lower a +:+ lower b.
Proof.
  induction a as [|x a IH]; [done |].
  rewrite append_cons. simpl. by rewrite IH, append_cons.
Qed.

Lemma lower_char_idemp (c : ascii) : lower_char (lower_char c) = lower_char c.
Proof. destruct c as [[] [] [] [] [] [] [] []]; reflexivity. Qed.

Lemma lower_idemp (s : string) : lower (lower s) = lower s.
Proof.
  induction s as [|c s IH]; [done |]. simpl. by rewrite lower_char_idemp, IH.
Qed.

Lemma lower_join (sep : string) (parts : list string) :
  lower (join sep parts) = join (lower sep) (lower <$> parts).
Proof.
  unfold join. induction parts as [|x [|y parts] IH]; [done | done |].
  change (lower (x +:+ sep +:+ String.concat sep (y :: parts))
          = lower x +:+ lower sep
            +:+ String.concat (lower sep) (lower <$> y :: parts)).
  by rewrite !lower_append, IH.
Qed.

Lemma join_app (sep : string) (xs ys : list string) :
  xs ≠ [] → ys ≠ [] →
  join sep (xs ++ ys) = join sep xs +:+ sep +:+ join sep ys.
Proof.
  unfold join. intros Hx Hy. induction xs as [|x [|x' xs] IH]; [done | |].
  - destruct ys; [done |]. reflexivity.
  - change (x +:+ sep +:+ String.concat sep ((x' :: xs) ++ ys)
            = (x +:+ sep +:+ String.concat sep (x' :: xs))
              +:+ sep +:+ String.concat sep ys).
    rewrite IH by done. by rewrite !append_assoc.
Qed.

Lemma contains_append (k a b : string) :
  contains k a = true ∨ contains k b = true → contains k (a +:+ b) = true.
Proof.
  intros [H | H]; apply contains_spec in H as (x & y & ->); apply contains_spec.
  - exists x, (y +:+ b). by rewrite !append_assoc.
  - exists (a +:+ x), y. by rewrite !append_assoc.
Qed.

Lemma contains_length (k s : string) :
  contains k s = true → (String.length k ≤ String.length s)%nat.
Proof.
  intros (a & b & ->)%contains_spec. rewrite !length_append. lia.
Qed.

Lemma user_contents_app (xs ys : list message) :
  user_contents (xs ++ ys) = (user_contents xs ++ user_contents ys)%list.
Proof. unfold user_contents. by rewrite filter_app, fmap_app. Qed.

(** X9: the request counts as complex exactly when one of the nine
    keywords occurs as a contiguous block of the lower-cased user text:
    a match inside a longer word counts, and word boundaries play no part
    beyond the spaces that three of the keywords carry. *)
Theorem is_complex_iff_substring (messages : list message) :
  is_complex messages = true
  ↔ ∃ k a b, k ∈ complex_keywords ∧
      lower (join " " (user_contents messages)) = a +:+ k +:+ b.
Proof.
  unfold is_complex. rewrite existsb_exists. split.
  - intros (k & Hin%list_elem_of_In & (a & b & E)%contains_spec).
    by exists k, a, b.
  - intros (k & a & b & Hin & E). exists k.
    split; [by apply list_elem_of_In |]. apply contains_spec. by exists a, b.
Qed.

(** X10: a user text of fewer than four characters is never complex; in
    particular a conversation without any user message is not. *)
Theorem short_text_not_complex (messages : list message) :
  (String.length (user_text messages) < 4)%nat →
  is_complex messages = false.
Proof.
  intros Hlen. apply is_complex_false. intros k Hk.
  apply not_true_is_false. intros Hc%contains_length.
  unfold complex_keywords in Hk.
  repeat (apply elem_of_cons in Hk as [-> | Hk]; [simpl in Hc; lia |]).
  by apply elem_of_nil in Hk.
Qed.

Lemma short_text_not_complex_witness :
  is_complex [Message "system" "compare and calculate"; Message "user" "if"]
  = false.
Proof.
  apply short_text_not_complex. vm_compute. lia.
Defined.

(** X11: the heuristic does not see letter case: two conversations whose
    messages have the same roles and the same contents up to case are
    complex together. *)
Theorem is_complex_ignores_case (ms ms' : list message) :
  Forall2 (λ m m', role m = role m' ∧ lower (content m) = lower (content m'))
    ms ms' →
  is_complex ms = is_complex ms'.
Proof.
  intros H. unfold is_complex, user_text. rewrite !lower_join.
  assert (lower <$> user_contents ms = lower <$> user_contents ms') as ->;
    [| done].
  unfold user_contents. induction H as [|m m' ms ms' [Hr Hc] _ IH]; [done |].
  destruct (decide (role m = "user")) as [Hu | Hu].
  - rewrite !filter_cons_True by congruence. rewrite !fmap_cons.
    by rewrite Hc, IH.
  - rewrite !filter_cons_False by congruence. exact IH.
Qed.

Lemma is_complex_ignores_case_witness :
  is_complex [Message "user" "COMPARE The Weather"]
  = is_complex [Message "user" "compare the weather"].
Proof.
  apply is_complex_ignores_case.
  constructor; [split; reflexivity | constructor].
Defined.

(** X12: adding messages before or after a conversation that is complex
    leaves it complex: the keyword is still in the joined text. *)
Theorem is_complex_monotone (before ms after : list message) :
  is_complex ms = true →
  is_complex (before ++ ms ++ after) = true.
Proof.
  intros (k & a & b & Hk & E)%is_complex_iff_substring.
  apply (is_complex_true _ k Hk). unfold user_text.
  rewrite !user_contents_app.
  assert (contains k (lower (join " " (user_contents ms))) = true) as Hc.
  { apply contains_spec. by exists a, b. }
  assert (user_contents ms ≠ []) as Hne.
  { intros E'. rewrite E' in Hc. unfold complex_keywords in Hk.
    repeat (apply elem_of_cons in Hk as [-> | Hk]; [done |]).
    by apply elem_of_nil in Hk. }
  assert (∀ rest, contains k (lower (join " " (user_contents ms ++ rest))) = true)
    as Hright.
  { intros rest. destruct rest as [|r rest]; [by rewrite app_nil_r |].
    rewrite join_app by done. rewrite lower_append.
    apply contains_append. by left. }
  destruct (user_contents before) as [|x xs]; [apply Hright |].
  rewrite join_app; [| done | by destruct (user_contents ms)].
  rewrite !lower_append. apply contains_append. right.
  apply contains_append. right. apply Hright.
Qed.

Lemma is_complex_monotone_witness :
  is_complex ([Message "user" "Hello."] ++ complex_question
              ++ [Message "assistant" "Sure."; Message "user" "Thanks."])
  = true.
Proof. apply is_complex_monotone. reflexivity. Defined.

(** X13: a message whose role is not "user" is invisible to the keyword
    scan and to the cloud adapter: putting one anywhere in the conversation
    changes neither the verdict nor anything the cloud adapter does. *)
Theorem other_roles_ignored `{R : Runtime}
    (before after : list message) (m : message) (tools : list tool) :
  role m ≠ "user" →
  is_complex (before ++ m :: after) = is_complex (before ++ after)
  ∧ generate_cloud (before ++ m :: after) tools
    = generate_cloud (before ++ after) tools.
Proof.
  intros Hr.
  assert (user_contents (before ++ m :: after) = user_contents (before ++ after))
    as E.
  { rewrite !user_contents_app. f_equal. unfold user_contents.
    by rewrite filter_cons_False. }
  split.
  - unfold is_complex, user_text. by rewrite E.
  - unfold generate_cloud. by rewrite E.
Qed.

Lemma other_roles_ignored_witness :
  is_complex ([] ++ Message "system" "compare and calculate" :: simple_question)
  = is_complex ([] ++ simple_question)
  ∧ generate_cloud (R := mock_engine [] PNone)
      ([] ++ Message "system" "compare and calculate" :: simple_question)
      [get_weather]
    = generate_cloud (R := mock_engine [] PNone) ([] ++ simple_question)
        [get_weather].
Proof.
  apply (other_roles_ignored (R := mock_engine [] PNone) []
           simple_question (Message "system" "compare and calculate")
           [get_weather]).
  discriminate.
Defined.

(** ** The router: the remaining branches *)

Lemma fallback_of_branch `{R : Runtime}
    (messages : list message) (tools : list tool) (thr : float) (w w1 : world)
    (label : string) (c t : pyval) :
  generate_hybrid messages tools thr w = fallback messages tools label c t w1 →
  ∀ cloud w2 ct total,
    generate_cloud messages tools w1 = (Ok cloud, w2) →
    cloud !! "total_time_ms" = Some ct →
    py_add ct t = Ok total →
    ∃ r, generate_hybrid messages tools thr w = (Ok r, w2) ∧
         r !! "source" = Some (PStr label).
Proof.
  intros E cloud w2 ct total Hcloud Hct Hadd. eexists. rewrite E.
  split; [by apply (fallback_returns _ _ _ _ _ _ _ _ _ _ Hcloud Hct Hadd) |].
  apply merged_source.
Qed.

(** X14: when the local result holds two calls or more, the router falls
    back with reason multi_call without looking at any of them, nor at the
    messages or at the confidence. *)
Theorem multi_call_falls_back `{R : Runtime}
    (messages : list message) (tools : list tool) (thr : float) (w w1 : world)
    (local : gmap string pyval) (c1 c2 : pyval) (rest : list pyval) :
  generate_cactus messages tools w = (Ok local, w1) →
  local !! "function_calls" = Some (PList (c1 :: c2 :: rest)) →
  generate_hybrid messages tools thr w
  = fallback messages tools "cloud (fallback: multi_call)"
      (conf_of local) (time_of local) w1
  ∧ ∀ cloud w2 ct total,
      generate_cloud messages tools w1 = (Ok cloud, w2) →
      cloud !! "total_time_ms" = Some ct →
      py_add ct (time_of local) = Ok total →
      ∃ r, generate_hybrid messages tools thr w = (Ok r, w2) ∧
           r !! "source" = Some (PStr "cloud (fallback: multi_call)").
Proof.
  intros Hl Hc.
  assert (calls_of local = PList (c1 :: c2 :: rest)) as E
    by (unfold calls_of; by rewrite Hc).
  assert (generate_hybrid messages tools thr w
          = fallback messages tools "cloud (fallback: multi_call)"
              (conf_of local) (time_of local) w1) as Hf.
  { apply (hybrid_multi_call _ _ _ _ _ _ Hl (S (S (length rest))));
      [by rewrite E | by rewrite E | lia]. }
  split; [exact Hf | exact (fallback_of_branch _ _ _ _ _ _ _ _ Hf)].
Qed.

Lemma multi_call_falls_back_witness :
  ∃ r,
    generate_hybrid (R := mock_engine [PInt 1; PNone] (PStr "high"))
      complex_question [] default_confidence_threshold world0
    = (Ok r, World ∅ 1 2) ∧
    r !! "source" = Some (PStr "cloud (fallback: multi_call)").
Proof.
  apply (proj2 (multi_call_falls_back
                  (R := mock_engine [PInt 1; PNone] (PStr "high"))
                  complex_question [] default_confidence_threshold world0
                  (released world0)
                  (engine_record [PInt 1; PNone] (PStr "high"))
                  (PInt 1) PNone []
                  ltac:(vm_compute; reflexivity) ltac:(reflexivity))
           cloud_record (World ∅ 1 2) (PFloat 250) (PFloat 262.5)).
  - vm_compute. reflexivity.
  - reflexivity.
  - reflexivity.
Defined.

(** X15: a single call to a declared tool that lacks a parameter which
    every declaration of that name requires falls back with reason
    missing_args, whatever else the call provides. *)
Theorem missing_argument_falls_back `{R : Runtime}
    (messages : list message) (tools : list tool) (thr : float) (w w1 : world)
    (local call args : gmap string pyval) (n p : string) :
  generate_cactus messages tools w = (Ok local, w1) →
  local !! "function_calls" = Some (PList [PDict call]) →
  call !! "name" = Some (PStr n) →
  n ∈ name <$> tools →
  default (PDict ∅) (call !! "arguments") = PDict args →
  (∀ t, t ∈ tools → name t = n → p ∈ default [] (required (parameters t))) →
  args !! p = None →
  generate_hybrid messages tools thr w
  = fallback messages tools "cloud (fallback: missing_args)"
      (conf_of local) (time_of local) w1
  ∧ ∀ cloud w2 ct total,
      generate_cloud messages tools w1 = (Ok cloud, w2) →
      cloud !! "total_time_ms" = Some ct →
      py_add ct (time_of local) = Ok total →
      ∃ r, generate_hybrid messages tools thr w = (Ok r, w2) ∧
           r !! "source" = Some (PStr "cloud (fallback: missing_args)").
Proof.
  intros Hl Hc Hn Hd%declared_name Ha%arguments_of_call Hreq Hp.
  assert (generate_hybrid messages tools thr w
          = fallback messages tools "cloud (fallback: missing_args)"
              (conf_of local) (time_of local) w1) as Hf.
  { apply (hybrid_missing_args messages tools thr w w1 local Hl (PDict call) Hc
             (PStr n) (name_of_call _ _ Hn) n args eq_refl Hd Ha).
    destruct (required_params_declared _ _ Hd) as [s E]. rewrite E. simpl.
    destruct (required_params_lookup _ _ _ E) as (t & Hin & Hnm & ->).
    intros Hsub. specialize (Hsub p).
    rewrite elem_of_list_to_set, elem_of_dom, Hp in Hsub.
    destruct (Hsub (Hreq t Hin Hnm)) as [? [=]]. }
  split; [exact Hf | exact (fallback_of_branch _ _ _ _ _ _ _ _ Hf)].
Qed.

Lemma missing_argument_falls_back_witness :
  ∃ r,
    generate_hybrid
      (R := mock_engine [PDict (weather_call {["city" := PStr "SF"]})]
              (PFloat 0.95))
      simple_question [get_weather] default_confidence_threshold world0
    = (Ok r, World ∅ 1 2) ∧
    r !! "source" = Some (PStr "cloud (fallback: missing_args)").
Proof.
  apply (proj2 (missing_argument_falls_back
                  (R := mock_engine
                          [PDict (weather_call {["city" := PStr "SF"]})]
                          (PFloat 0.95))
                  simple_question [get_weather] default_confidence_threshold
                  world0 (released world0)
                  (engine_record [PDict (weather_call {["city" := PStr "SF"]})]
                     (PFloat 0.95))
                  (weather_call {["city" := PStr "SF"]})
                  {["city" := PStr "SF"]} "get_weather" "location"
                  ltac:(vm_compute; reflexivity) ltac:(reflexivity)
                  ltac:(reflexivity) ltac:(by left) ltac:(reflexivity)
                  ltac:(intros t ->%list_elem_of_singleton _; by left)
                  ltac:(reflexivity))
           cloud_record (World ∅ 1 2) (PFloat 250) (PFloat 262.5)).
  - vm_compute. reflexivity.
  - reflexivity.
  - reflexivity.
Defined.

(** ** The router: what an acceptance implies *)

Lemma single_item (calls call : pyval) (n : nat) :
  truthy calls = true →
  py_len calls = Ok n →
  (1 <? n)%nat = false →
  py_getitem calls (PInt 0) = Ok call →
  calls = PList [call] ∨ ∃ c, calls = PStr (String c EmptyString) ∧ call = calls.
Proof.
  intros Ht Hn Hle Hg. apply Nat.ltb_ge in Hle.
  destruct calls as [| | | | s | l | d]; try done.
  - right. injection Hn as <-. destruct s as [|c [|c' s]]; simpl in *;
      [done | | lia]. injection Hg as <-. by exists c.
  - left. injection Hn as <-. destruct l as [|x [|y l]]; simpl in *;
      [done | | lia]. by injection Hg as <-.
Qed.

(** X16: the router accepts nothing else than what its checks let
    through.  A result whose source is "on-device" is the local record with
    that one key added, the cloud adapter was not called, and the local
    record held a single call, an object whose name is a declared tool and
    whose arguments are an object covering the required parameters of a
    declaration of that name, for a text without keyword and a confidence
    not below the threshold. *)
Theorem accepted_only_if_valid `{R : Runtime}
    (messages : list message) (tools : list tool) (thr : float) (w w' : world)
    (r : gmap string pyval) :
  generate_hybrid messages tools thr w = (Ok r, w') →
  r !! "source" = Some (PStr "on-device") →
  ∃ local call n args t,
    generate_cactus messages tools w = (Ok local, w') ∧
    r = <["source" := PStr "on-device"]> local ∧
    local !! "function_calls" = Some (PList [PDict call]) ∧
    call !! "name" = Some (PStr n) ∧
    default (PDict ∅) (call !! "arguments") = PDict args ∧
    t ∈ tools ∧ name t = n ∧
    (∀ p, p ∈ default [] (required (parameters t)) → p ∈ dom args) ∧
    is_complex messages = false ∧
    py_lt (conf_of local) thr = Ok false.
Proof.
  unfold generate_hybrid. intros H Hsrc.
  apply bind_inv in H as (local & w1 & Hl & H). cbv zeta in H.
  assert (∀ label c t,
    fallback messages tools label c t w1 = (Ok r, w') →
    label ≠ "on-device" → False) as Hfell.
  { intros label c t Hf Hne.
    destruct (fallback_inv _ _ _ _ _ _ _ _ Hf) as (? & ? & _ & _ & ->).
    rewrite merged_source in Hsrc. congruence. }
  destruct (truthy _) eqn:Ht; simpl in H; [| by destruct (Hfell _ _ _ H)].
  apply bind_inv in H as (len & ? & [Hlen ->]%lift_inv & H).
  destruct (1 <? len)%nat eqn:Hle; [by destruct (Hfell _ _ _ H) |].
  apply bind_inv in H as (call & ? & [Hcall ->]%lift_inv & H).
  apply bind_inv in H as (nm & ? & [Hnm ->]%lift_inv & H).
  apply bind_inv in H as (unknown & ? & [Hunk ->]%lift_inv & H).
  destruct unknown; [by destruct (Hfell _ _ _ H) |].
  apply bind_inv in H as (nm' & ? & [Hnm' ->]%lift_inv & H).
  apply bind_inv in H as (arguments & ? & [Harg ->]%lift_inv & H).
  apply bind_inv in H as (provided & ? & [Hprov ->]%lift_inv & H).
  destruct (bool_decide _) eqn:Hsub; simpl in H;
    [| by destruct (Hfell _ _ _ H)].
  destruct (is_complex messages) eqn:Hcx; [by destruct (Hfell _ _ _ H) |].
  apply bind_inv in H as (below & ? & [Hlt ->]%lift_inv & H).
  destruct below; [by destruct (Hfell _ _ _ H) |].
  injection H as <- <-.
  rewrite Hnm in Hnm'. injection Hnm' as <-.
  destruct (single_item _ _ _ Ht Hlen Hle Hcall) as [Ec | (c & Ec & Ecall)];
    [| by rewrite Ecall, Ec in Hnm].
  destruct call as [| | | | s | l | call]; try (simpl in Hnm; done).
  simpl in Hnm. destruct (call !! "name") as [v|] eqn:En; [| done].
  injection Hnm as ->.
  destruct nm as [| | | | n | |]; try done. simpl in Hunk.
  injection Hunk as Hin%bool_decide_eq_false. apply dec_stable in Hin.
  simpl in Harg. injection Harg as <-.
  destruct (default (PDict ∅) (call !! "arguments")) as [| | | | | | args] eqn:Ea;
    try done.
  simpl in Hprov. injection Hprov as <-.
  apply bool_decide_eq_true in Hsub.
  destruct (required_params_declared _ _ Hin) as [s Es].
  rewrite Es in Hsub. simpl in Hsub.
  destruct (required_params_lookup _ _ _ Es) as (t & Htin & Htn & ->).
  destruct (generate_cactus_shape _ _ _ _ _ Hl) as (fc & tm & cf & ->).
  eexists _, call, n, args, t.
  split; [exact Hl |]. split; [done |].
  split; [| repeat split; try done].
  - rewrite lookup_insert_eq. f_equal. unfold calls_of in Ec.
    by rewrite lookup_insert_eq in Ec.
  - intros p Hp. apply Hsub. by apply elem_of_list_to_set.
Qed.

Lemma accepted_only_if_valid_witness :
  ∃ local call n args t,
    generate_cactus (R := mock_engine [PDict (weather_call in_SF)] (PFloat 0.95))
      simple_question [get_weather] world0 = (Ok local, World ∅ 1 0) ∧
    <["source" := PStr "on-device"]>
      (engine_record [PDict (weather_call in_SF)] (PFloat 0.95))
    = <["source" := PStr "on-device"]> local ∧
    local !! "function_calls" = Some (PList [PDict call]) ∧
    call !! "name" = Some (PStr n) ∧
    default (PDict ∅) (call !! "arguments") = PDict args ∧
    t ∈ [get_weather] ∧ name t = n ∧
    (∀ p, p ∈ default [] (required (parameters t)) → p ∈ dom args) ∧
    is_complex simple_question = false ∧
    py_lt (conf_of local) default_confidence_threshold = Ok false.
Proof.
  apply (accepted_only_if_valid
           (R := mock_engine [PDict (weather_call in_SF)] (PFloat 0.95))
           simple_question [get_weather] default_confidence_threshold world0).
  - vm_compute. reflexivity.
  - reflexivity.
Defined.

(** ** The router: the world it leaves *)

Lemma bind_any {A B} (m : M A) (k : A → M B) (w w' : world) (res : result B) :
  (m ≫= k) w = (res, w') →
  (∃ a w1, m w = (Ok a, w1) ∧ k a w1 = (res, w'))
  ∨ (∃ e, m w = (Raise e, w') ∧ res = Raise e).
Proof.
  unfold mbind, M_bind. destruct (m w) as [[a | e] w1]; [eauto |].
  intros [= <- <-]. eauto.
Qed.

Lemma lift_any {A B} (r : result A) (k : A → M B) (w w' : world)
    (res : result B) :
  (lift r ≫= k) w = (res, w') →
  (∃ a, r = Ok a ∧ k a w = (res, w')) ∨ w' = w.
Proof.
  intros [(a & w1 & [= -> ->] & H) | (e & [= _ ->] & _)]%bind_any; eauto.
Qed.

Lemma fallback_world `{R : Runtime}
    (messages : list message) (tools : list tool) (label : string)
    (c t : pyval) (w1 w' : world) (res : result (gmap string pyval)) :
  fallback messages tools label c t w1 = (res, w') →
  ∃ res2, generate_cloud messages tools w1 = (res2, w').
Proof.
  unfold fallback.
  intros [(cloud & w2 & Hc & [= _ ->]) | (e & Hc & _)]%bind_any; eauto.
Qed.

Lemma generate_hybrid_worlds `{R : Runtime}
    (messages : list message) (tools : list tool) (thr : float) (w w' : world)
    (res : result (gmap string pyval)) :
  generate_hybrid messages tools thr w = (res, w') →
  ∃ res1 w1,
    generate_cactus messages tools w = (res1, w1) ∧
    (w' = w1 ∨ ∃ res2, generate_cloud messages tools w1 = (res2, w')).
Proof.
  unfold generate_hybrid.
  intros [(local & w1 & Hl & H) | (e & Hl & _)]%bind_any; [| eauto].
  exists (Ok local), w1. split; [exact Hl |]. cbv zeta in H.
  destruct (negb (truthy _)); [right; by eapply fallback_world |].
  apply lift_any in H as [(len & _ & H) | ->]; [| by left].
  destruct (1 <? len)%nat; [right; by eapply fallback_world |].
  apply lift_any in H as [(call & _ & H) | ->]; [| by left].
  apply lift_any in H as [(nm & _ & H) | ->]; [| by left].
  apply lift_any in H as [(unknown & _ & H) | ->]; [| by left].
  destruct unknown; [right; by eapply fallback_world |].
  apply lift_any in H as [(nm' & _ & H) | ->]; [| by left].
  apply lift_any in H as [(arguments & _ & H) | ->]; [| by left].
  apply lift_any in H as [(provided & _ & H) | ->]; [| by left].
  destruct (negb (bool_decide _)); [right; by eapply fallback_world |].
  destruct (is_complex messages); [right; by eapply fallback_world |].
  apply lift_any in H as [(below & _ & H) | ->]; [| by left].
  destruct below; [right; by eapply fallback_world |].
  left. by injection H as _ <-.
Qed.


Lemma generate_cactus_world `{R : Runtime}
    (messages : list message) (tools : list tool) (w w1 : world)
    (res : result (gmap string pyval)) :
  generate_cactus messages tools w = (res, w1) →
  w1 = released w ∨ w1 = leaked w.
Proof.
  intros H. destruct (engine_output messages tools) as [text | e] eqn:He.
  - left. by destruct (generate_cactus_releases _ _ _ _ _ _ He H).
  - right. rewrite (generate_cactus_engine_raises _ _ _ _ He) in H.
    by injection H as _ <-.
Qed.

Lemma generate_cloud_clock `{R : Runtime}
    (messages : list message) (tools : list tool) (w w' : world)
    (res : result (gmap string pyval)) :
  generate_cloud messages tools w = (res, w') →
  (clock_reads w ≤ clock_reads w' ≤ clock_reads w + 2)%nat.
Proof.
  unfold generate_cloud, mbind, M_bind, lift, time_time. simpl.
  destruct (genai_Client gemini_api_key); [| intros [= _ <-]; lia].
  destruct (generate_content _ _ _); intros [= _ <-]; simpl; lia.
Qed.

(** X17: however [generate_hybrid] ends, with a result or with an
    exception, it has run the local adapter once and then the cloud adapter
    at most once, in that order: the world it leaves is the one the local
    adapter left, or the one a single cloud call made of it, and the clock
    was read at most twice. *)
Theorem cloud_called_at_most_once `{R : Runtime}
    (messages : list message) (tools : list tool) (thr : float) (w w' : world)
    (res : result (gmap string pyval)) :
  generate_hybrid messages tools thr w = (res, w') →
  (∃ res1 w1,
     generate_cactus messages tools w = (res1, w1) ∧
     (w' = w1 ∨ ∃ res2, generate_cloud messages tools w1 = (res2, w')))
  ∧ (clock_reads w ≤ clock_reads w' ≤ clock_reads w + 2)%nat.
Proof.
  intros H.
  destruct (generate_hybrid_worlds _ _ _ _ _ _ H) as (res1 & w1 & Hl & Hw).
  split; [by exists res1, w1 |].
  assert (clock_reads w1 = clock_reads w) as E
    by (by destruct (generate_cactus_world _ _ _ _ _ Hl) as [-> | ->]).
  destruct Hw as [-> | [res2 Hc]]; [lia |].
  pose proof (generate_cloud_clock _ _ _ _ _ Hc). lia.
Qed.

Lemma cloud_called_at_most_once_witness :
  (∃ res1 w1,
     generate_cactus (R := mock_engine [] (PFloat 0.95))
       simple_question [get_weather] world0 = (res1, w1) ∧
     (World ∅ 1 2 = w1
      ∨ ∃ res2, generate_cloud (R := mock_engine [] (PFloat 0.95))
                  simple_question [get_weather] w1 = (res2, World ∅ 1 2)))
  ∧ (clock_reads world0 ≤ clock_reads (World ∅ 1 2) ≤ clock_reads world0 + 2)%nat.
Proof.
  apply (cloud_called_at_most_once (R := mock_engine [] (PFloat 0.95))
           simple_question [get_weather] default_confidence_threshold world0
           (World ∅ 1 2)
           (Ok (merged "cloud (fallback: no_calls)" (PFloat 0.95) (PFloat 262.5)
                  cloud_record))).
  vm_compute. reflexivity.
Defined.

(** X18: when the engine call returns, the router never leaves the model
    handle it took live, whether it ends with a result or with an exception
    of the decoder, of a check or of the cloud adapter; the handles that
    were live before are the ones live after. *)
Theorem router_releases_model `{R : Runtime}
    (messages : list message) (tools : list tool) (thr : float) (w w' : world)
    (text : string) (res : result (gmap string pyval)) :
  engine_output messages tools = Ok text →
  generate_hybrid messages tools thr w = (res, w') →
  (next_model w ∉ live_models w')
  ∧ live_models w' = live_models w ∖ {[next_model w]}.
Proof.
  intros He H.
  destruct (generate_hybrid_worlds messages tools thr w w' res H)
    as (res1 & w1 & Hl & Hw).
  destruct (generate_cactus_releases _ _ _ _ _ _ He Hl) as [-> Hnot].
  assert (live_models w' = live_models (released w)) as E.
  { destruct Hw as [-> | [res2 Hc]]; [done |].
    by apply (generate_cloud_models _ _ _ _ _ Hc). }
  rewrite E. split; [exact Hnot |]. unfold released; simpl.
  apply set_eq. intros x.
  rewrite !elem_of_difference, elem_of_union, elem_of_singleton. tauto.
Qed.

Lemma router_releases_model_witness :
  (next_model world0 ∉ live_models (World ∅ 1 1))
  ∧ live_models (World ∅ 1 1) = live_models world0 ∖ {[next_model world0]}.
Proof.
  apply (router_releases_model
           (R := mock (Ok "{}") (Ok (PDict ∅)) (Raise (CloudError "unavailable")))
           simple_question [get_weather] default_confidence_threshold world0
           (World ∅ 1 1) "{}" (Raise (CloudError "unavailable"))).
  - reflexivity.
  - vm_compute. reflexivity.
Defined.

(** ** The router: malformed local results *)

(** X19: an engine output that does not parse is routed to the cloud as
    no_calls: the result carries a local_confidence of 0 and, the local time
    being the integer 0, the time of the cloud call plus 0.0. *)
Theorem unparsable_output_goes_to_cloud `{R : Runtime}
    (messages : list message) (tools : list tool) (thr : float) (w w2 : world)
    (text : string) (cloud : gmap string pyval) (ct : float) :
  engine_output messages tools = Ok text →
  json_loads text = Raise JSONDecodeError →
  generate_cloud messages tools (released w) = (Ok cloud, w2) →
  cloud !! "total_time_ms" = Some (PFloat ct) →
  generate_hybrid messages tools thr w
  = (Ok (merged "cloud (fallback: no_calls)" (PInt 0) (PFloat (ct + 0))
           cloud), w2).
Proof.
  intros He Hj Hc Hct.
  pose proof (generate_cactus_unparsable _ _ w _ He Hj) as Hl.
  rewrite (hybrid_no_calls _ _ thr _ _ _ Hl) by reflexivity.
  by apply (fallback_returns _ _ _ _ _ _ _ _ (PFloat ct)).
Qed.

Lemma unparsable_output_goes_to_cloud_witness :
  generate_hybrid
    (R := mock (Ok "not json") (Raise JSONDecodeError) (Ok cloud_answer))
    simple_question [get_weather] default_confidence_threshold world0
  = (Ok (merged "cloud (fallback: no_calls)" (PInt 0) (PFloat (250 + 0))
           cloud_record), World ∅ 1 2).
Proof.
  apply (unparsable_output_goes_to_cloud
           (R := mock (Ok "not json") (Raise JSONDecodeError) (Ok cloud_answer))
           simple_question [get_weather] default_confidence_threshold world0
           (World ∅ 1 2) "not json" cloud_record 250).
  - reflexivity.
  - reflexivity.
  - vm_compute. reflexivity.
  - reflexivity.
Defined.

(** X20: an engine output object whose function_calls is missing, null,
    false, 0, an empty string, an empty list or an empty object is routed to
    the cloud as no_calls, with the confidence and the time the object
    gives (0 when absent). *)
Theorem falsy_calls_go_to_cloud `{R : Runtime}
    (messages : list message) (tools : list tool) (thr : float) (w : world)
    (text : string) (d : gmap string pyval) :
  engine_output messages tools = Ok text →
  json_loads text = Ok (PDict d) →
  truthy (default (PList []) (d !! "function_calls")) = false →
  generate_hybrid messages tools thr w
  = fallback messages tools "cloud (fallback: no_calls)"
      (default (PInt 0) (d !! "confidence"))
      (default (PInt 0) (d !! "total_time_ms")) (released w).
Proof.
  intros He Hj Ht.
  pose proof (generate_cactus_object _ _ w _ _ He Hj) as Hl.
  rewrite (hybrid_no_calls _ _ thr _ _ _ Hl).
  - reflexivity.
  - unfold calls_of. by rewrite lookup_insert_eq.
Qed.

Lemma falsy_calls_go_to_cloud_witness :
  generate_hybrid
    (R := mock (Ok "{...}") (Ok (PDict {["function_calls" := PNone]}))
            (Ok cloud_answer))
    simple_question [get_weather] default_confidence_threshold world0
  = fallback
      (R := mock (Ok "{...}") (Ok (PDict {["function_calls" := PNone]}))
              (Ok cloud_answer))
      simple_question [get_weather] "cloud (fallback: no_calls)"
      (default (PInt 0)
         (({["function_calls" := PNone]} : gmap string pyval) !! "confidence"))
      (default (PInt 0)
         (({["function_calls" := PNone]} : gmap string pyval) !! "total_time_ms"))
      (released world0).
Proof.
  apply (falsy_calls_go_to_cloud
           (R := mock (Ok "{...}") (Ok (PDict {["function_calls" := PNone]}))
                   (Ok cloud_answer))
           simple_question [get_weather] default_confidence_threshold world0
           "{...}" {["function_calls" := PNone]}).
  - reflexivity.
  - reflexivity.
  - reflexivity.
Defined.

(** X21: a single call that is not an object (a number, a string, null, a
    list) makes the router raise TypeError on [call["name"]]; the cloud
    adapter is not called. *)
Theorem non_object_call_raises `{R : Runtime}
    (messages : list message) (tools : list tool) (thr : float) (w w1 : world)
    (local : gmap string pyval) (call : pyval) :
  generate_cactus messages tools w = (Ok local, w1) →
  local !! "function_calls" = Some (PList [call]) →
  (∀ d, call ≠ PDict d) →
  generate_hybrid messages tools thr w = (Raise TypeError, w1).
Proof.
  intros Hl Hc Hcall. apply (hybrid_name_raises _ _ _ _ _ _ Hl call Hc).
  destruct call; try done. by destruct (Hcall d).
Qed.

Lemma non_object_call_raises_witness :
  generate_hybrid (R := mock_engine [PStr "get_weather"] (PFloat 0.95))
    simple_question [get_weather] default_confidence_threshold world0
  = (Raise TypeError, released world0).
Proof.
  apply (non_object_call_raises
           (R := mock_engine [PStr "get_weather"] (PFloat 0.95))
           simple_question [get_weather] default_confidence_threshold world0
           (released world0)
           (engine_record [PStr "get_weather"] (PFloat 0.95))
           (PStr "get_weather")).
  - vm_compute. reflexivity.
  - reflexivity.
  - discriminate.
Defined.
